(** * sql_parser: column-lineage flattening, verified on a shallow embedding

    The development follows [src/sql_parser.py]:
    - [convert_sql_to_metadata] calls the external lineage extractor once and
      flattens its nested result into row dictionaries;
    - [process_sql_file] reads one file and converts it;
    - [process] classifies the input, collects one data frame per statement,
      concatenates them and writes the CSV.

    Python dictionaries are insertion ordered, and the row dictionaries are
    shared by reference inside the inner loop, so rows live in an object
    store and the list [rows] holds references into it.

    The lineage extractor, [Path.rglob] and the text encoding of CSV lines
    are parameters ([External]); [Path.stem] follows pathlib on POSIX
    paths.  Data frames keep what the
    program relies on: [pd.DataFrame(rows)] and [pd.concat] take the union
    of the columns in order of first appearance and keep the rows in order,
    and [pd.concat] refuses an empty list.  The final write is idealised:
    of the ways it can fail only a destination that is a directory is
    modelled, and a write that goes through stores the whole text at once,
    so nothing is proved here about a write that fails part-way.  Calls to
    [LOGGER] change neither results nor files and are left out. *)

From Stdlib Require Import Ascii String.
From stdpp Require Import base strings list gmap pretty.

Open Scope string_scope.
Open Scope list_scope.

(** ** Python values, exceptions and results *)

(** The scalar values that travel through the rows: [None] or a [str]. *)
Inductive PyVal : Type :=
  | PyNone
  | PyStr (s : string).

#[global] Instance PyVal_eq_dec : EqDecision PyVal.
Proof. solve_decision. Defined.

(** Python truthiness of a scalar: [None] and the empty string are falsy. *)
Definition truthy (v : PyVal) : bool :=
  match v with
  | PyNone => false
  | PyStr EmptyString => false
  | PyStr _ => true
  end.

(** [d.get(k)] on a key that may be absent: [None] stands for "no such key". *)
Definition dict_get_or_None (o : option PyVal) : PyVal :=
  match o with
  | Some v => v
  | None => PyNone
  end.

Inductive exn : Type :=
  | Exception (msg : string)
  | KeyError (key : string)
  | ValueError (msg : string)
  | FileNotFoundError (path : string)
  | IsADirectoryError (path : string)
  | OtherError (cls msg : string).

#[global] Instance exn_eq_dec : EqDecision exn.
Proof. solve_decision. Defined.

Inductive Result (A : Type) : Type :=
  | Return (a : A)
  | Raise (e : exn).

Arguments Return {A} a.
Arguments Raise {A} e.

(** ** Insertion-ordered dictionaries *)

Module Dict.

Definition dict (V : Type) : Type := list (string * V).

Definition empty {V : Type} : dict V := [].

Fixpoint get {V : Type} (k : string) (d : dict V) : option V :=
  match d with
  | [] => None
  | (k', v) :: d' => if String.eqb k k' then Some v else get k d'
  end.

(** [d[k] = v]: an existing key keeps its position, a new key goes last. *)
Fixpoint set {V : Type} (k : string) (v : V) (d : dict V) : dict V :=
  match d with
  | [] => [(k, v)]
  | (k', v') :: d' =>
      if String.eqb k k' then (k', v) :: d' else (k', v') :: set k v d'
  end.

Definition keys {V : Type} (d : dict V) : list string := map fst d.

Definition mem (k : string) (ks : list string) : bool :=
  existsb (String.eqb k) ks.

End Dict.

Abbreviation dict := Dict.dict.

(** ** A state and exception monad *)

Definition M (S A : Type) : Type := S -> Result A * S.

Definition ret {S A : Type} (a : A) : M S A := fun s => (Return a, s).

Definition raise {S A : Type} (e : exn) : M S A := fun s => (Raise e, s).

Definition bind {S A B : Type} (m : M S A) (k : A -> M S B) : M S B :=
  fun s =>
    match m s with
    | (Return a, s') => k a s'
    | (Raise e, s') => (Raise e, s')
    end.

Declare Scope py_scope.
Delimit Scope py_scope with py.
Notation "x <- m ;; k" := (bind m (fun x => k))
  (at level 100, m at next level, right associativity) : py_scope.
Notation "m ;; k" := (bind m (fun _ => k))
  (at level 100, right associativity) : py_scope.
Open Scope py_scope.

(** [for x in xs: body]. *)
Fixpoint for_each {S A : Type} (xs : list A) (body : A -> M S unit) : M S unit :=
  match xs with
  | [] => ret tt
  | x :: xs' => body x ;; for_each xs' body
  end.

(** [o[key]] on a key that may be absent. *)
Definition getitem {S A : Type} (key : string) (o : option A) : M S A :=
  match o with
  | Some v => ret v
  | None => raise (KeyError key)
  end.

(** [try: body except Exception as e: raise e]. *)
Definition try_reraise {S A : Type} (body : M S A) : M S A :=
  fun s =>
    match body s with
    | (Return a, s') => (Return a, s')
    | (Raise e, s') => (Raise e, s')
    end.

(** ** The lineage result of the external extractor *)

(** A field is [None] when the dictionary has no such key. *)
Record LineageItem : Type := {
  li_schema : option PyVal;
  li_table : option PyVal;
  li_column : option PyVal;
  li_expression : option PyVal;
  li_filter_type : option PyVal;
  li_filter : option PyVal;
  li_message : option PyVal
}.

Record ColumnDetails : Type := {
  cd_data_type : option PyVal;
  cd_lineage : option (list LineageItem)
}.

(** The value stored under ['columns']: [None] or a mapping. *)
Inductive Columns : Type :=
  | ColumnsNone
  | ColumnsDict (d : dict ColumnDetails).

Record TableDetails : Type := {
  td_schema : option PyVal;
  td_table : option PyVal;
  td_columns : option Columns
}.

(** What the extractor returns: [None] or a mapping from fully qualified
    table names to table details. *)
Inductive Lineage : Type :=
  | LineageNone
  | LineageDict (d : dict TableDetails).

Definition truthy_columns (c : Columns) : bool :=
  match c with
  | ColumnsDict (_ :: _) => true
  | _ => false
  end.

Definition columns_items (c : Columns) : dict ColumnDetails :=
  match c with
  | ColumnsDict d => d
  | ColumnsNone => []
  end.

Definition truthy_lineage (l : Lineage) : bool :=
  match l with
  | LineageDict (_ :: _) => true
  | _ => false
  end.

Definition lineage_items (l : Lineage) : dict TableDetails :=
  match l with
  | LineageDict d => d
  | LineageNone => []
  end.

(** ** The object store of row dictionaries *)

Definition ref : Type := nat.

Record Frame : Type := {
  heap : list (dict PyVal);
  rows : list ref
}.

Definition empty_frame : Frame := {| heap := []; rows := [] |}.

(** [row = {}] *)
Definition new_dict : M Frame ref :=
  fun fr => (Return (length (heap fr)),
             {| heap := heap fr ++ [Dict.empty]; rows := rows fr |}).

(** [row[k] = v] through a reference. *)
Definition setitem (r : ref) (k : string) (v : PyVal) : M Frame unit :=
  fun fr => (Return tt,
             {| heap := alter (Dict.set k v) r (heap fr); rows := rows fr |}).

(** [rows.append(row)] stores the reference, not a copy. *)
Definition rows_append (r : ref) : M Frame unit :=
  fun fr => (Return tt, {| heap := heap fr; rows := rows fr ++ [r] |}).

Definition deref (h : list (dict PyVal)) (r : ref) : dict PyVal :=
  default Dict.empty (h !! r).

(** The dictionaries the list [rows] denotes in a given store. *)
Definition frame_rows (fr : Frame) : list (dict PyVal) :=
  map (deref (heap fr)) (rows fr).

(** ** Data frames *)

Module pd.

Record DataFrame : Type := {
  df_columns : list string;
  df_rows : list (dict PyVal)
}.

(** Columns already present keep their place, new ones are appended in
    the order in which they are met. *)
Fixpoint union_columns (seen ks : list string) : list string :=
  match ks with
  | [] => seen
  | k :: ks' =>
      union_columns (if Dict.mem k seen then seen else seen ++ [k]) ks'
  end.

(** [pd.DataFrame(columns=[...])] *)
Definition of_columns (cols : list string) : DataFrame :=
  {| df_columns := cols; df_rows := [] |}.

(** [pd.DataFrame(rows)] for a list of dictionaries. *)
Definition of_rows (rs : list (dict PyVal)) : DataFrame :=
  {| df_columns := fold_left (fun acc r => union_columns acc (Dict.keys r)) rs [];
     df_rows := rs |}.

Definition concat2 (a b : DataFrame) : DataFrame :=
  {| df_columns := union_columns (df_columns a) (df_columns b);
     df_rows := df_rows a ++ df_rows b |}.

(** [pd.concat(dfs, ignore_index=True)] *)
Definition concat (dfs : list DataFrame) : Result DataFrame :=
  match dfs with
  | [] => Raise (ValueError "No objects to concatenate")
  | d :: ds => Return (fold_left concat2 ds d)
  end.

(** A cell of the written table: a missing entry and [None] are empty. *)
Definition cell (o : option PyVal) : string :=
  match o with
  | Some (PyStr s) => s
  | _ => EmptyString
  end.

Definition header (index : bool) (df : DataFrame) : list string :=
  if index then EmptyString :: df_columns df else df_columns df.

Definition record (index : bool) (cols : list string)
    (ir : nat * dict PyVal) : list string :=
  let cells := map (fun c => cell (Dict.get c ir.2)) cols in
  if index then pretty ir.1 :: cells else cells.

(** The lines [df.to_csv(..., index=index)] serialises, header first. *)
Definition csv_lines (index : bool) (df : DataFrame) : list (list string) :=
  header index df :: map (record index (df_columns df)) (imap pair (df_rows df)).

End pd.

Abbreviation DataFrame := pd.DataFrame.

(** ** The world outside the program *)

(** [files] gives, for every path that can be opened and decoded, the text
    a text-mode [read()] returns; [dirs] holds the directories. *)
Record FileSystem : Type := {
  files : gmap string string;
  dirs : gset string
}.

(** [calls] logs every invocation of the external extractor. *)
Record World : Type := {
  fs : FileSystem;
  calls : list (string * PyVal)
}.

(** What the program takes from its libraries and from the operating
    system without fixing it itself: the lineage extractor, the order in
    which [Path.rglob] discovers files, and the text encoding of the CSV
    lines. *)
Class External : Type := {
  extract_sql_statements_lineage : string -> PyVal -> Result Lineage;
  rglob : FileSystem -> string -> string -> list string;
  csv_text : list (list string) -> string
}.

(** ** [Path(p).stem], as pathlib computes it on POSIX paths *)


(** [s.split(sep)] for a one-character separator. *)
Fixpoint split_on (sep : ascii) (s : string) : list string :=
  match s with
  | EmptyString => [EmptyString]
  | String c s' =>
      if Ascii.eqb c sep then EmptyString :: split_on sep s'
      else
        match split_on sep s' with
        | part :: parts => String c part :: parts
        | [] => [String c EmptyString]
        end
  end.

(** Splits a string at the last occurrence of [sep]. *)
Fixpoint cut (sep : ascii) (s : string) : option (string * string) :=
  match s with
  | EmptyString => None
  | String c s' =>
      match cut sep s' with
      | Some (a, b) => Some (String c a, b)
      | None => if Ascii.eqb c sep then Some (EmptyString, s') else None
      end
  end.

(** A component that pathlib drops when it parses a path: empty or [.]. *)
Definition dropped_part (part : string) : bool :=
  String.eqb part EmptyString || String.eqb part ".".

(** [Path(p).name]: the last component that is left, or the empty string. *)
Definition path_name (p : string) : string :=
  default EmptyString
    (last (List.filter (fun part => negb (dropped_part part))
             (split_on "/"%char p))).

(** [Path(p).stem]: the name up to its last dot, when that dot is neither
    the first nor the last character of the name; the name otherwise. *)
Definition stem (p : string) : string :=
  match cut "."%char (path_name p) with
  | Some (String c a, String _ _) => String c a
  | _ => path_name p
  end.

Definition lift {S A : Type} (r : Result A) : M S A := fun s => (r, s).

Definition isfile (p : string) : M World bool :=
  fun w => (Return (bool_decide (is_Some (files (fs w) !! p))), w).

Definition isdir (p : string) : M World bool :=
  fun w => (Return (bool_decide (p ∈ dirs (fs w))), w).

(** [with open(p, 'r') as file: file.read()] *)
Definition read_file (p : string) : M World string :=
  fun w =>
    match files (fs w) !! p with
    | Some text => (Return text, w)
    | None =>
        (Raise (if bool_decide (p ∈ dirs (fs w))
                then IsADirectoryError p else FileNotFoundError p), w)
    end.

(** Runs a block that builds rows in a fresh object store and hands back
    the dictionaries its list [rows] denotes once the block is over. *)
Definition run_frame (m : M Frame unit) : M World (list (dict PyVal)) :=
  fun w =>
    match m empty_frame with
    | (Return _, fr) => (Return (frame_rows fr), w)
    | (Raise e, _) => (Raise e, w)
    end.

(** [for x in xs: acc.append(body(x))] *)
Fixpoint collect {S A B : Type} (xs : list A) (body : A -> M S B)
    (acc : list B) : M S (list B) :=
  match xs with
  | [] => ret acc
  | x :: xs' => b <- body x ;; collect xs' body (acc ++ [b])
  end.

Definition metadata_columns : list string :=
  [ "filename"; "database_name"; "cluster_name"; "schema_name"; "table_name";
    "column_name"; "column_data_type"; "expression"; "message";
    "source_database_name"; "source_cluster_name"; "source_schema_name";
    "source_table_name"; "source_column_name" ].

Section Program.

Context `{Ext : External}.

Definition call_extractor (sql_stmt : string) (dialect : PyVal) : M World Lineage :=
  fun w => (extract_sql_statements_lineage sql_stmt dialect,
            {| fs := fs w; calls := calls w ++ [(sql_stmt, dialect)] |}).

(** [df.to_csv(output, index=index)], idealised: it raises when [output] is
    a directory and stores the whole text otherwise. *)
Definition to_csv (df : DataFrame) (output : string) (index : bool) : M World unit :=
  fun w =>
    if bool_decide (output ∈ dirs (fs w)) then (Raise (IsADirectoryError output), w)
    else (Return tt,
          {| fs := {| files := <[output := csv_text (pd.csv_lines index df)]> (files (fs w));
                      dirs := dirs (fs w) |};
             calls := calls w |}).

(** The body of [for lineage_item in column_details['lineage']]. *)
Definition lineage_item_body (row : ref)
    (source_database_name source_cluster_name : PyVal)
    (lineage_item : LineageItem) : M Frame unit :=
  let lineage_row := row in
  setitem lineage_row "source_database_name" source_database_name ;;
  setitem lineage_row "source_cluster_name" source_cluster_name ;;
  v <- getitem "schema" (li_schema lineage_item) ;;
  setitem lineage_row "source_schema_name" v ;;
  v <- getitem "table" (li_table lineage_item) ;;
  setitem lineage_row "source_table_name" v ;;
  v <- getitem "column" (li_column lineage_item) ;;
  setitem lineage_row "source_column_name" v ;;
  v <- getitem "expression" (li_expression lineage_item) ;;
  setitem lineage_row "expression" v ;;
  v <- getitem "filter_type" (li_filter_type lineage_item) ;;
  setitem lineage_row "filter_type" v ;;
  v <- getitem "filter" (li_filter lineage_item) ;;
  setitem lineage_row "filter" v ;;
  v <- getitem "message" (li_message lineage_item) ;;
  setitem lineage_row "message" v ;;
  rows_append lineage_row.

Definition column_data_type (column_details : ColumnDetails) : PyVal :=
  if truthy (dict_get_or_None (cd_data_type column_details))
  then dict_get_or_None (cd_data_type column_details)
  else PyStr "NA".

(** The body of [for column_name, column_details in ...items()]. *)
Definition column_body (filename database_name cluster_name
    source_database_name source_cluster_name : PyVal)
    (table_details : TableDetails)
    (item : string * ColumnDetails) : M Frame unit :=
  let '(column_name, column_details) := item in
  row <- new_dict ;;
  setitem row "filename" filename ;;
  setitem row "database_name" database_name ;;
  setitem row "cluster_name" cluster_name ;;
  setitem row "schema_name" (dict_get_or_None (td_schema table_details)) ;;
  setitem row "table_name" (dict_get_or_None (td_table table_details)) ;;
  setitem row "column_name" (PyStr column_name) ;;
  setitem row "column_data_type" (column_data_type column_details) ;;
  match cd_lineage column_details with
  | Some items =>
      for_each items
        (lineage_item_body row source_database_name source_cluster_name)
  | None => ret tt
  end.

(** The body of [for fq_table_name, table_details in lineage.items()]. *)
Definition table_body (filename database_name cluster_name
    source_database_name source_cluster_name : PyVal)
    (item : string * TableDetails) : M Frame unit :=
  let '(fq_table_name, table_details) := item in
  columns <- getitem "columns" (td_columns table_details) ;;
  if truthy_columns columns then
    for_each (columns_items columns)
      (column_body filename database_name cluster_name
         source_database_name source_cluster_name table_details)
  else
    row <- new_dict ;;
    setitem row "filename" filename ;;
    setitem row "database_name" database_name ;;
    setitem row "cluster_name" cluster_name ;;
    v <- getitem "schema" (td_schema table_details) ;;
    setitem row "schema_name" v ;;
    v <- getitem "table" (td_table table_details) ;;
    setitem row "table_name" v ;;
    rows_append row.

Definition convert_sql_to_metadata (filename : PyVal) (sql_stmt : string)
    (database_name cluster_name schema_name table_name
     source_database_name source_cluster_name dialect : PyVal)
    : M World DataFrame :=
  let metadata := pd.of_columns metadata_columns in
  try_reraise
    (lineage <- call_extractor sql_stmt dialect ;;
     metadata <-
       (if truthy_lineage lineage then
          rows <- run_frame
                    (for_each (lineage_items lineage)
                       (table_body filename database_name cluster_name
                          source_database_name source_cluster_name)) ;;
          lift (pd.concat [metadata; pd.of_rows rows])
        else raise (Exception "Column Lineage not found")) ;;
     ret metadata).

(** The body of [process_sql_file], with the function it calls left open,
    so that what it hands to that function can be stated. *)
Definition process_sql_file_with
    (callee : PyVal -> string -> PyVal -> PyVal -> PyVal -> PyVal ->
              PyVal -> PyVal -> PyVal -> M World DataFrame)
    (sql_file : string)
    (database_name cluster_name schema_name
     source_database_name source_cluster_name dialect : PyVal)
    : M World DataFrame :=
  sql_stmt <- read_file sql_file ;;
  callee (PyStr sql_file) sql_stmt database_name cluster_name
    schema_name (PyStr (stem sql_file))
    source_database_name source_cluster_name dialect.

Definition process_sql_file : string -> PyVal -> PyVal -> PyVal ->
    PyVal -> PyVal -> PyVal -> M World DataFrame :=
  process_sql_file_with convert_sql_to_metadata.

(** The list [dfs] that [process] builds before it concatenates. *)
Definition process_dfs (input : string)
    (database_name cluster_name schema_name table_name
     source_database_name source_cluster_name dialect : PyVal)
    : M World (list DataFrame) :=
  let dfs : list DataFrame := [] in
  is_file <- isfile input ;;
  if is_file then
    df <- process_sql_file input database_name cluster_name schema_name
            source_database_name source_cluster_name dialect ;;
    ret (dfs ++ [df])
  else
    is_dir <- isdir input ;;
    if is_dir then
      fun w =>
        collect (rglob (fs w) input "*.sql")
          (fun sql_file =>
             process_sql_file sql_file database_name cluster_name schema_name
               source_database_name source_cluster_name dialect)
          dfs w
    else
      df <- convert_sql_to_metadata PyNone input database_name cluster_name
              schema_name table_name
              source_database_name source_cluster_name dialect ;;
      ret (dfs ++ [df]).

Definition process (input output : string)
    (database_name cluster_name schema_name table_name
     source_database_name source_cluster_name dialect : PyVal)
    : M World unit :=
  dfs <- process_dfs input database_name cluster_name schema_name table_name
           source_database_name source_cluster_name dialect ;;
  combined_df <- lift (pd.concat dfs) ;;
  to_csv combined_df output false.

End Program.

(** ** What the three loops leave in [rows]

    The functions below describe, without a store, the dictionaries that
    the list [rows] denotes when the loops are over; [None] stands for a
    run the loops abandon with an exception because a subscripted key is
    missing.  They are related to the program by the lemmas that follow. *)

Definition present {A : Type} (o : option A) : bool :=
  match o with
  | Some _ => true
  | None => false
  end.

(** Every key that the inner loop subscripts is there. *)
Definition item_complete (li : LineageItem) : bool :=
  present (li_schema li) && present (li_table li) && present (li_column li)
  && present (li_expression li) && present (li_filter_type li)
  && present (li_filter li) && present (li_message li).

Section Rows.

Variables filename database_name cluster_name : PyVal.
Variables source_database_name source_cluster_name : PyVal.

(** The assignments of one pass through the inner loop, on the row itself. *)
Definition item_update (d : dict PyVal) (li : LineageItem) : dict PyVal :=
  Dict.set "message" (dict_get_or_None (li_message li))
    (Dict.set "filter" (dict_get_or_None (li_filter li))
      (Dict.set "filter_type" (dict_get_or_None (li_filter_type li))
        (Dict.set "expression" (dict_get_or_None (li_expression li))
          (Dict.set "source_column_name" (dict_get_or_None (li_column li))
            (Dict.set "source_table_name" (dict_get_or_None (li_table li))
              (Dict.set "source_schema_name" (dict_get_or_None (li_schema li))
                (Dict.set "source_cluster_name" source_cluster_name
                  (Dict.set "source_database_name" source_database_name
                     d)))))))).

(** The row of a column before the inner loop starts. *)
Definition base_row (td : TableDetails) (column_name : string)
    (cd : ColumnDetails) : dict PyVal :=
  [ ("filename", filename); ("database_name", database_name);
    ("cluster_name", cluster_name);
    ("schema_name", dict_get_or_None (td_schema td));
    ("table_name", dict_get_or_None (td_table td));
    ("column_name", PyStr column_name);
    ("column_data_type", column_data_type cd) ].

(** The row of a column once the inner loop has passed over [li]. *)
Definition full_row (td : TableDetails) (column_name : string)
    (cd : ColumnDetails) (li : LineageItem) : dict PyVal :=
  [ ("filename", filename); ("database_name", database_name);
    ("cluster_name", cluster_name);
    ("schema_name", dict_get_or_None (td_schema td));
    ("table_name", dict_get_or_None (td_table td));
    ("column_name", PyStr column_name);
    ("column_data_type", column_data_type cd);
    ("source_database_name", source_database_name);
    ("source_cluster_name", source_cluster_name);
    ("source_schema_name", dict_get_or_None (li_schema li));
    ("source_table_name", dict_get_or_None (li_table li));
    ("source_column_name", dict_get_or_None (li_column li));
    ("expression", dict_get_or_None (li_expression li));
    ("filter_type", dict_get_or_None (li_filter_type li));
    ("filter", dict_get_or_None (li_filter li));
    ("message", dict_get_or_None (li_message li)) ].

(** The row of a table without columns. *)
Definition bare_row (schema table : PyVal) : dict PyVal :=
  [ ("filename", filename); ("database_name", database_name);
    ("cluster_name", cluster_name);
    ("schema_name", schema); ("table_name", table) ].

(** One column: as many entries as lineage items, all of them the one
    shared row in its final state. *)
Definition column_rows (td : TableDetails) (item : string * ColumnDetails)
    : option (list (dict PyVal)) :=
  match cd_lineage item.2 with
  | None => Some []
  | Some items =>
      if forallb item_complete items then
        match last items with
        | Some li => Some (replicate (length items) (full_row td item.1 item.2 li))
        | None => Some []
        end
      else None
  end.

(** Runs [g] over [xs] in order and joins the outputs; one failure fails all. *)
Fixpoint gather {A R : Type} (g : A -> option (list R)) (xs : list A)
    : option (list R) :=
  match xs with
  | [] => Some []
  | x :: xs' =>
      match g x, gather g xs' with
      | Some o, Some os => Some (o ++ os)
      | _, _ => None
      end
  end.

Definition table_rows (item : string * TableDetails) : option (list (dict PyVal)) :=
  match td_columns item.2 with
  | None => None
  | Some columns =>
      if truthy_columns columns then
        gather (column_rows item.2) (columns_items columns)
      else
        match td_schema item.2, td_table item.2 with
        | Some s, Some t => Some [bare_row s t]
        | _, _ => None
        end
  end.

Definition lineage_rows (tables : dict TableDetails) : option (list (dict PyVal)) :=
  gather table_rows tables.

End Rows.

(** Well-formedness of a lineage result: every key that the code subscripts
    (rather than reads with [.get]) is present. *)
Definition column_wf (cd : ColumnDetails) : bool :=
  match cd_lineage cd with
  | Some items => forallb item_complete items
  | None => true
  end.

Definition table_wf (td : TableDetails) : bool :=
  match td_columns td with
  | None => false
  | Some columns =>
      if truthy_columns columns
      then forallb (fun item => column_wf item.2) (columns_items columns)
      else present (td_schema td) && present (td_table td)
  end.

Definition lineage_wf (tables : dict TableDetails) : bool :=
  forallb (fun item => table_wf item.2) tables.

(** Row counts, as the specification words them. *)
Definition column_lineage_count (cd : ColumnDetails) : nat :=
  match cd_lineage cd with
  | Some items => length items
  | None => 0
  end.

Definition table_row_count (td : TableDetails) : nat :=
  match td_columns td with
  | Some columns =>
      if truthy_columns columns
      then list_sum (map (fun item => column_lineage_count item.2) (columns_items columns))
      else 1
  | None => 0
  end.

Definition expected_row_count (tables : dict TableDetails) : nat :=
  list_sum (map (fun item => table_row_count item.2) tables).

(** The world after the extractor has been called once more. *)
Definition logged (w : World) (sql_stmt : string) (dialect : PyVal) : World :=
  {| fs := fs w; calls := calls w ++ [(sql_stmt, dialect)] |}.

(** The world after [output] has been written. *)
Definition written (w : World) (output content : string) : World :=
  {| fs := {| files := <[output := content]> (files (fs w)); dirs := dirs (fs w) |};
     calls := calls w |}.

(** ** Predicates used by the proofs *)

(** Every reference in [rows] points into the store. *)
Definition frame_ok (fr : Frame) : Prop :=
  Forall (fun r => r < length (heap fr)) (rows fr).

(** [emits m o]: from any store, the block [m] appends the rows [o] and
    touches no row appended before, or fails when [o] is [None]. *)
Definition emits (m : M Frame unit) (o : option (list (dict PyVal))) : Prop :=
  forall fr, frame_ok fr ->
    match o with
    | Some out =>
        exists fr', m fr = (Return tt, fr') /\ frame_ok fr'
                    /\ frame_rows fr' = frame_rows fr ++ out
    | None => exists e fr', m fr = (Raise e, fr')
    end.

(** The frame a successful call returns for the rows [rs]. *)
Definition converted (rs : list (dict PyVal)) : DataFrame :=
  pd.concat2 (pd.of_columns metadata_columns) (pd.of_rows rs).

(** The caller's file, database and cluster, and the table's own schema
    and table, are what a row is identified by. *)
Definition row_identifies (filename database_name cluster_name : PyVal)
    (td : TableDetails) (row : dict PyVal) : Prop :=
  Dict.get "filename" row = Some filename
  /\ Dict.get "database_name" row = Some database_name
  /\ Dict.get "cluster_name" row = Some cluster_name
  /\ Dict.get "schema_name" row = Some (dict_get_or_None (td_schema td))
  /\ Dict.get "table_name" row = Some (dict_get_or_None (td_table td)).

(** The rows of a returned frame; none when the call raised. *)
Definition result_rows (r : Result DataFrame) : list (dict PyVal) :=
  match r with
  | Return df => pd.df_rows df
  | Raise _ => []
  end.

(** The keys of a row of a table without columns, and of a row that went
    through the inner loop, in insertion order. *)
Definition bare_keys : list string :=
  [ "filename"; "database_name"; "cluster_name"; "schema_name"; "table_name" ].

Definition full_keys : list string :=
  [ "filename"; "database_name"; "cluster_name"; "schema_name"; "table_name";
    "column_name"; "column_data_type"; "source_database_name";
    "source_cluster_name"; "source_schema_name"; "source_table_name";
    "source_column_name"; "expression"; "filter_type"; "filter"; "message" ].

(** Whether a row comes from a lineage item. *)
Definition has_lineage_keys (row : dict PyVal) : bool :=
  Dict.mem "filter_type" (Dict.keys row).

Section Tracing.

Context `{Ext : External}.

(** The exception a call to the extractor makes the conversion raise, if
    the extractor raises or returns a falsy result. *)
Definition call_fault (c : string * PyVal) : option exn :=
  match extract_sql_statements_lineage c.1 c.2 with
  | Raise e => Some e
  | Return l =>
      if truthy_lineage l then None
      else Some (Exception "Column Lineage not found")
  end.

(** [traced m]: the block [m] leaves the file system alone, only adds to
    the log of extractor calls, and ends with the exception of any
    faulty call it has made. *)
Definition traced {A : Type} (m : M World A) : Prop :=
  forall w,
    fs (m w).2 = fs w
    /\ exists new,
         calls (m w).2 = calls w ++ new
         /\ forall c e, c ∈ new -> call_fault c = Some e -> (m w).1 = Raise e.

End Tracing.

(** ** A stub of the outside world, for concrete runs *)

Module Stub.

Definition item (table column : string) : LineageItem :=
  {| li_schema := Some (PyStr "db"); li_table := Some (PyStr table);
     li_column := Some (PyStr column); li_expression := Some (PyStr column);
     li_filter_type := Some PyNone; li_filter := Some PyNone;
     li_message := Some PyNone |}.

(** One column fed by one source column. *)
Definition one_source : Lineage :=
  LineageDict
    [ ("db.t",
       {| td_schema := Some (PyStr "db"); td_table := Some (PyStr "t");
          td_columns := Some (ColumnsDict
            [ ("id", {| cd_data_type := None;
                        cd_lineage := Some [item "src" "id"] |}) ]) |}) ].

(** One column fed by two source columns, and a table without columns. *)
Definition two_sources : Lineage :=
  LineageDict
    [ ("db.v",
       {| td_schema := Some (PyStr "db"); td_table := Some (PyStr "v");
          td_columns := Some (ColumnsDict
            [ ("total", {| cd_data_type := Some (PyStr "int");
                           cd_lineage := Some [item "a" "x"; item "b" "y"] |}) ]) |});
      ("db.u",
       {| td_schema := Some (PyStr "db"); td_table := Some (PyStr "u");
          td_columns := Some (ColumnsDict []) |}) ].

(** A table without columns and nothing else. *)
Definition no_columns : Lineage :=
  LineageDict
    [ ("db.u",
       {| td_schema := Some (PyStr "db"); td_table := Some (PyStr "u");
          td_columns := Some (ColumnsDict []) |}) ].

Definition answer (sql_stmt : string) (dialect : PyVal) : Result Lineage :=
  if String.eqb sql_stmt "SELECT id FROM t" then Return one_source
  else if String.eqb sql_stmt "SELECT a.x + b.y AS total FROM a, b" then Return two_sources
  else if String.eqb sql_stmt "CREATE TABLE u (id int)" then Return no_columns
  else if String.eqb sql_stmt "SELEC" then Raise (OtherError "ParseError" "SELEC")
  else Return (LineageDict []).

Definition listing (fsys : FileSystem) (dir pattern : string) : list string :=
  if String.eqb dir "sql" then ["sql/a.sql"; "sql/sub/b.sql"] else [].

Definition newline : string := String "010"%char EmptyString.

Definition text (lines : list (list string)) : string :=
  String.concat newline (map (String.concat ",") lines).

Definition ext : External :=
  {| extract_sql_statements_lineage := answer;
     rglob := listing;
     csv_text := text |}.

Definition world : World :=
  {| fs := {| files := {[ "sql/a.sql" := "SELECT id FROM t";
                          "sql/sub/b.sql" := "SELECT a.x + b.y AS total FROM a, b";
                          "empty.sql" := EmptyString;
                          "out.csv" := "stale" ]};
              dirs := {[ "sql"; "sql/sub"; "empty" ]} |};
     calls := [] |}.

Definition frame_of (r : Result DataFrame) : DataFrame :=
  match r with
  | Return df => df
  | Raise _ => pd.of_columns []
  end.

(** The frames of the two files of the directory [sql], each on its own. *)
Definition first_frame : DataFrame :=
  Eval vm_compute in
    frame_of (process_sql_file (Ext := ext) "sql/a.sql" (PyStr "hive")
                (PyStr "c") PyNone PyNone PyNone PyNone world).1.

Definition second_frame : DataFrame :=
  Eval vm_compute in
    frame_of (process_sql_file (Ext := ext) "sql/sub/b.sql" (PyStr "hive")
                (PyStr "c") PyNone PyNone PyNone PyNone world).1.

(** The frame of the literal statement [SELECT id FROM t]. *)
Definition literal_frame : DataFrame :=
  Eval vm_compute in
    frame_of (convert_sql_to_metadata (Ext := ext) PyNone "SELECT id FROM t"
                (PyStr "hive") (PyStr "c") (PyStr "ignored")
                (PyStr "also ignored") PyNone PyNone PyNone world).1.

End Stub.

(** ** The command line entry point *)

(** The namespace [parser.parse_args()] returns: [--input] and [--output]
    are required strings, the other options default to [None]. *)
Module args.

Record Namespace : Type := {
  input : string;
  output : string;
  database : PyVal;
  cluster : PyVal;
  schema : PyVal;
  table : PyVal;
  source_database : PyVal;
  source_cluster : PyVal;
  dialect : PyVal
}.

End args.

(** Python truthiness of a [str]. *)
Definition truthy_str (s : string) : bool :=
  match s with
  | EmptyString => false
  | String _ _ => true
  end.

Section Main.

Context `{Ext : External}.

(** [main], from the parsed arguments on.  The last check before the call
    of [process] only logs a warning and is left out with the logger. *)
Definition main (a : args.Namespace) : M World unit :=
  if negb (truthy_str (args.input a)) then
    raise (Exception "Missing required arg --input")
  else if negb (truthy_str (args.output a)) then
    raise (Exception "Missing required arg --output")
  else
    is_file <- isfile (args.input a) ;;
    is_dir <- isdir (args.input a) ;;
    if negb is_file && negb is_dir && negb (truthy (args.table a)) then
      raise (Exception "Missing required arg --table when --input is a sql statement")
    else
      process (args.input a) (args.output a) (args.database a) (args.cluster a)
        (args.schema a) (args.table a) (args.source_database a)
        (args.source_cluster a) (args.dialect a).

End Main.

(** ** Further predicates *)

(** A column has no lineage item: the key is missing or the list is empty. *)
Definition without_lineage (cd : ColumnDetails) : bool :=
  match cd_lineage cd with
  | None | Some [] => true
  | Some (_ :: _) => false
  end.

(** The keys that [convert_sql_to_metadata] subscripts. *)
Definition subscripted_keys : list string :=
  [ "columns"; "schema"; "table"; "column"; "expression"; "filter_type";
    "filter"; "message" ].

Definition missing_key (e : exn) : Prop :=
  exists k, e = KeyError k /\ k ∈ subscripted_keys.

(** [only_raises P m]: whenever the block [m] raises, the exception is in [P]. *)
Definition only_raises {S A : Type} (P : exn -> Prop) (m : M S A) : Prop :=
  forall s e s', m s = (Raise e, s') -> P e.

(** ** A second stub, with a malformed answer and a failing file *)

Module Fixture.

(** A lineage item without the key ['filter']. *)
Definition no_filter : LineageItem :=
  {| li_schema := Some (PyStr "db"); li_table := Some (PyStr "src");
     li_column := Some (PyStr "id"); li_expression := Some (PyStr "id");
     li_filter_type := Some PyNone; li_filter := None;
     li_message := Some PyNone |}.

Definition malformed : Lineage :=
  LineageDict
    [ ("db.t",
       {| td_schema := Some (PyStr "db"); td_table := Some (PyStr "t");
          td_columns := Some (ColumnsDict
            [ ("id", {| cd_data_type := None;
                        cd_lineage := Some [no_filter] |}) ]) |}) ].

(** The tables of [Stub.one_source] followed by those of [Stub.two_sources]. *)
Definition both : Lineage :=
  LineageDict (lineage_items Stub.one_source ++ lineage_items Stub.two_sources).

Definition answer (sql_stmt : string) (dialect : PyVal) : Result Lineage :=
  if String.eqb sql_stmt "SELECT id FROM t" then Return Stub.one_source
  else if String.eqb sql_stmt "SELECT a.x + b.y AS total FROM a, b" then Return Stub.two_sources
  else if String.eqb sql_stmt "SELECT id FROM t; SELECT a.x + b.y AS total FROM a, b" then Return both
  else if String.eqb sql_stmt "SELECT broken" then Return malformed
  else Return (LineageDict []).

Definition listing (fsys : FileSystem) (dir pattern : string) : list string :=
  if String.eqb dir "jobs" then ["jobs/1.sql"; "jobs/2.sql"; "jobs/3.sql"]
  else if String.eqb dir "sql" then ["sql/a.sql"; "sql/sub/b.sql"]
  else [].

Definition ext : External :=
  {| extract_sql_statements_lineage := answer;
     rglob := listing;
     csv_text := Stub.text |}.

Definition world : World :=
  {| fs := {| files := {[ "sql/a.sql" := "SELECT id FROM t";
                          "sql/sub/b.sql" := "SELECT a.x + b.y AS total FROM a, b";
                          "jobs/1.sql" := "SELECT id FROM t";
                          "jobs/2.sql" := "SELECT broken";
                          "jobs/3.sql" := "SELECT id FROM t";
                          "out.csv" := "stale" ]};
              dirs := {[ "sql"; "sql/sub"; "jobs" ]} |};
     calls := [] |}.

(** The frames of the first two statements, each converted on its own. *)
Definition one_frame : DataFrame :=
  Eval vm_compute in
    Stub.frame_of
      (convert_sql_to_metadata (Ext := ext) PyNone "SELECT id FROM t"
         (PyStr "hive") (PyStr "c") PyNone PyNone PyNone PyNone PyNone world).1.

Definition two_frame : DataFrame :=
  Eval vm_compute in
    Stub.frame_of
      (convert_sql_to_metadata (Ext := ext) PyNone
         "SELECT a.x + b.y AS total FROM a, b"
         (PyStr "hive") (PyStr "c") PyNone PyNone PyNone PyNone PyNone world).1.


Definition arguments (input : string) (table : PyVal) : args.Namespace :=
  {| args.input := input; args.output := "out.csv";
     args.database := PyStr "hive"; args.cluster := PyStr "c";
     args.schema := PyNone; args.table := table;
     args.source_database := PyNone; args.source_cluster := PyNone;
     args.dialect := PyNone |}.

End Fixture.

(** * Lemmas *)

(** ** The object store *)

Lemma alter_last {A : Type} (f : A -> A) (h : list A) (d : A) :
  alter f (length h) (h ++ [d]) = h ++ [f d].
Proof. induction h as [|x h IH]; simpl; [reflexivity | by f_equal]. Qed.

Lemma deref_old (h : list (dict PyVal)) (d : dict PyVal) (r : ref) :
  r < length h -> deref (h ++ [d]) r = deref h r.
Proof. intros Hr. unfold deref. by rewrite lookup_app_l. Qed.

Lemma deref_new (h : list (dict PyVal)) (d : dict PyVal) :
  deref (h ++ [d]) (length h) = d.
Proof. unfold deref. by rewrite list_lookup_middle. Qed.

Lemma frame_ok_empty : frame_ok empty_frame.
Proof. constructor. Qed.

(** Appending [n] references to a new last object leaves the rows that
    were already there as they are. *)
Lemma frame_rows_extend (h : list (dict PyVal)) (rs : list ref)
    (d : dict PyVal) (n : nat) :
  Forall (fun r => r < length h) rs ->
  map (deref (h ++ [d])) (rs ++ replicate n (length h))
  = map (deref h) rs ++ replicate n d.
Proof.
  intros Hrs. rewrite map_app. f_equal.
  - apply map_ext_in. intros r Hr. apply deref_old.
    rewrite Forall_forall in Hrs. apply Hrs. by apply list_elem_of_In.
  - induction n as [|n IH]; simpl; [reflexivity|].
    by rewrite deref_new, IH.
Qed.

Lemma frame_ok_extend (h : list (dict PyVal)) (rs : list ref)
    (d : dict PyVal) (n : nat) :
  Forall (fun r => r < length h) rs ->
  Forall (fun r => r < length (h ++ [d])) (rs ++ replicate n (length h)).
Proof.
  intros Hrs. rewrite length_app. simpl. apply Forall_app. split.
  - eapply Forall_impl; [exact Hrs|]. simpl. intros; lia.
  - apply Forall_replicate. lia.
Qed.

Lemma emits_for_each {A : Type} (body : A -> M Frame unit)
    (g : A -> option (list (dict PyVal))) (xs : list A) :
  (forall x, x ∈ xs -> emits (body x) (g x)) ->
  emits (for_each xs body) (gather g xs).
Proof.
  induction xs as [|x xs IH]; intros Hbody fr Hok; simpl.
  - exists fr. by rewrite app_nil_r.
  - assert (Hx := Hbody x ltac:(left) fr Hok).
    assert (Hxs : emits (for_each xs body) (gather g xs)).
    { apply IH. intros y Hy. apply Hbody. by right. }
    unfold bind. destruct (g x) as [o|].
    + destruct Hx as (fr1 & -> & Hok1 & Hrows1).
      specialize (Hxs fr1 Hok1). destruct (gather g xs) as [os|].
      * destruct Hxs as (fr2 & -> & Hok2 & Hrows2).
        exists fr2. by rewrite Hrows2, Hrows1, app_assoc.
      * exact Hxs.
    + destruct Hx as (e & fr' & ->). eauto.
Qed.

(** ** The inner loop *)

Section Loops.

Variables filename database_name cluster_name : PyVal.
Variables source_database_name source_cluster_name : PyVal.

Let item_upd := item_update source_database_name source_cluster_name.
Let item_body (r : ref) :=
  lineage_item_body r source_database_name source_cluster_name.

Lemma lineage_item_body_complete (li : LineageItem) (h : list (dict PyVal))
    (d : dict PyVal) (rs : list ref) :
  item_complete li = true ->
  item_body (length h) li {| heap := h ++ [d]; rows := rs |}
  = (Return tt, {| heap := h ++ [item_upd d li]; rows := rs ++ [length h] |}).
Proof.
  destruct li as [[a|] [b|] [c|] [e|] [f|] [g|] [m|]]; try discriminate.
  intros _. unfold item_body, item_upd, lineage_item_body, item_update.
  unfold bind, setitem, getitem, ret, rows_append.
  cbn [heap rows li_schema li_table li_column li_expression li_filter_type
       li_filter li_message dict_get_or_None].
  by rewrite !alter_last.
Qed.

Lemma lineage_item_body_incomplete (li : LineageItem) (r : ref) (fr : Frame) :
  item_complete li = false ->
  exists e fr', item_body r li fr = (Raise e, fr').
Proof.
  destruct li as [[a|] [b|] [c|] [e|] [f|] [g|] [m|]]; try discriminate;
    intros _; unfold item_body, lineage_item_body;
    unfold bind, setitem, getitem, ret, raise, rows_append; cbn; eauto.
Qed.

Lemma lineage_loop_complete (items : list LineageItem) :
  forall (h : list (dict PyVal)) (d : dict PyVal) (rs : list ref),
  forallb item_complete items = true ->
  for_each items (item_body (length h)) {| heap := h ++ [d]; rows := rs |}
  = (Return tt, {| heap := h ++ [fold_left item_upd items d];
                   rows := rs ++ replicate (length items) (length h) |}).
Proof.
  induction items as [|li items IH]; intros h d rs Hall; simpl.
  - by rewrite app_nil_r.
  - apply andb_true_iff in Hall as [Hli Hall].
    unfold bind. rewrite lineage_item_body_complete by done.
    rewrite IH by done. by rewrite <- app_assoc.
Qed.

Lemma lineage_loop_incomplete (items : list LineageItem) :
  forall (h : list (dict PyVal)) (d : dict PyVal) (rs : list ref),
  forallb item_complete items = false ->
  exists e fr',
    for_each items (item_body (length h)) {| heap := h ++ [d]; rows := rs |}
    = (Raise e, fr').
Proof.
  induction items as [|li items IH]; intros h d rs Hall; simpl in *.
  - discriminate.
  - unfold bind. destruct (item_complete li) eqn:Hli.
    + rewrite lineage_item_body_complete by done. by apply IH.
    + destruct (lineage_item_body_incomplete li (length h)
                  {| heap := h ++ [d]; rows := rs |} Hli) as (e & fr' & ->).
      eauto.
Qed.

End Loops.

(** ** The shared row after the inner loop *)

Section SharedRow.

Variables filename database_name cluster_name : PyVal.
Variables source_database_name source_cluster_name : PyVal.
Variables (td : TableDetails) (column_name : string) (cd : ColumnDetails).

Let item_upd := item_update source_database_name source_cluster_name.
Let base := base_row filename database_name cluster_name td column_name cd.
Let full := full_row filename database_name cluster_name
              source_database_name source_cluster_name td column_name cd.

(** The first pass adds the nine lineage keys to the row. *)
Lemma item_update_base (li : LineageItem) : item_upd base li = full li.
Proof. reflexivity. Qed.

(** Every later pass overwrites them in place. *)
Lemma item_update_full (li' li : LineageItem) : item_upd (full li') li = full li.
Proof. reflexivity. Qed.

Lemma fold_item_update_full (items : list LineageItem) (li' : LineageItem) :
  fold_left item_upd items (full li') = full (default li' (last items)).
Proof.
  revert li'. induction items as [|li items IH]; intros li'; [reflexivity|].
  cbn [fold_left]. rewrite item_update_full, IH.
  destruct items as [|x items]; [reflexivity|].
  change (last (li :: x :: items)) with (last (x :: items)).
  destruct (last (x :: items)) eqn:Hlast; [reflexivity|].
  by apply last_None in Hlast.
Qed.

(** After the loop the row carries the fields of the last item only. *)
Lemma fold_item_update_last (items : list LineageItem) (li : LineageItem) :
  last items = Some li ->
  fold_left item_upd items base = full li.
Proof.
  destruct items as [|li0 items]; [discriminate|]. intros Hlast.
  cbn [fold_left]. rewrite item_update_base, fold_item_update_full.
  destruct items as [|x items].
  - by injection Hlast as ->.
  - change (last (li0 :: x :: items)) with (last (x :: items)) in Hlast.
    by rewrite Hlast.
Qed.

End SharedRow.

(** ** The column loop and the table loop *)

Section Bodies.

Variables filename database_name cluster_name : PyVal.
Variables source_database_name source_cluster_name : PyVal.

Lemma column_body_start (td : TableDetails) (cn : string) (cd : ColumnDetails)
    (h : list (dict PyVal)) (rs : list ref) :
  column_body filename database_name cluster_name
    source_database_name source_cluster_name td (cn, cd)
    {| heap := h; rows := rs |}
  = match cd_lineage cd with
    | Some items =>
        for_each items
          (lineage_item_body (length h) source_database_name source_cluster_name)
    | None => ret tt
    end {| heap := h ++ [base_row filename database_name cluster_name td cn cd];
           rows := rs |}.
Proof.
  unfold column_body, bind, new_dict, setitem. cbn [heap rows].
  by rewrite !alter_last.
Qed.

Lemma column_body_emits (td : TableDetails) (item : string * ColumnDetails) :
  emits (column_body filename database_name cluster_name
           source_database_name source_cluster_name td item)
        (column_rows filename database_name cluster_name
           source_database_name source_cluster_name td item).
Proof.
  destruct item as [cn cd]. intros [h rs] Hok. unfold frame_ok in Hok.
  cbn [heap rows] in Hok. rewrite column_body_start.
  unfold column_rows. cbn [fst snd]. destruct (cd_lineage cd) as [items|].
  - destruct (forallb item_complete items) eqn:Hall.
    + rewrite lineage_loop_complete by done.
      destruct (last items) as [li|] eqn:Hlast.
      * erewrite fold_item_update_last by done.
        eexists. split; [reflexivity|]. split.
        -- by apply frame_ok_extend.
        -- by apply frame_rows_extend.
      * apply last_None in Hlast as ->. cbn [length replicate fold_left].
        eexists. split; [reflexivity|]. split.
        -- by apply (frame_ok_extend h rs _ 0).
        -- by apply (frame_rows_extend h rs _ 0).
    + by apply lineage_loop_incomplete.
  - eexists. split; [reflexivity|]. split.
    + rewrite <- (app_nil_r rs). by apply (frame_ok_extend h rs _ 0).
    + unfold frame_rows. cbn [heap rows].
      rewrite <- (app_nil_r rs) at 1. by apply (frame_rows_extend h rs _ 0).
Qed.

Lemma table_body_emits (item : string * TableDetails) :
  emits (table_body filename database_name cluster_name
           source_database_name source_cluster_name item)
        (table_rows filename database_name cluster_name
           source_database_name source_cluster_name item).
Proof.
  destruct item as [fq td]. unfold table_body, table_rows. cbn [fst snd].
  destruct (td_columns td) as [columns|].
  - destruct (truthy_columns columns) eqn:Hcols.
    + intros fr Hok. unfold bind, getitem, ret. rewrite Hcols.
      apply emits_for_each; [|done]. intros x _. apply column_body_emits.
    + intros [h rs] Hok. unfold frame_ok in Hok. cbn [heap rows] in Hok.
      unfold bind, getitem, ret, raise. rewrite Hcols.
      destruct (td_schema td) as [s|], (td_table td) as [t|];
        unfold new_dict, setitem, rows_append; cbn [heap rows]; eauto.
      rewrite !alter_last. eexists. split; [reflexivity|]. split.
      * by apply (frame_ok_extend h rs _ 1).
      * by apply (frame_rows_extend h rs _ 1).
  - intros fr _. unfold bind, getitem, raise. eauto.
Qed.

Lemma table_loop_emits (tables : dict TableDetails) :
  emits (for_each tables
           (table_body filename database_name cluster_name
              source_database_name source_cluster_name))
        (lineage_rows filename database_name cluster_name
           source_database_name source_cluster_name tables).
Proof. apply emits_for_each. intros x _. apply table_body_emits. Qed.

End Bodies.

(** ** Well-formed lineage results are exactly those the loops get through *)

Lemma gather_Some_iff {A R : Type} (g : A -> option (list R)) (xs : list A) :
  is_Some (gather g xs) <-> Forall (fun x => is_Some (g x)) xs.
Proof.
  induction xs as [|x xs IH]; simpl.
  - split; [constructor | eauto].
  - rewrite Forall_cons, <- IH. destruct (g x), (gather g xs); split;
      try (intros [? ?]); try (intros [? [? ?]]); try discriminate; eauto.
    all: split; eauto.
Qed.

Lemma gather_app {A R : Type} (g : A -> option (list R)) (xs ys : list A)
    (rs : list R) :
  gather g (xs ++ ys) = Some rs ->
  exists rx ry, gather g xs = Some rx /\ gather g ys = Some ry /\ rs = rx ++ ry.
Proof.
  revert rs. induction xs as [|x xs IH]; intros rs; simpl.
  - intros ->. by exists [], rs.
  - destruct (g x) as [o|]; [|discriminate].
    destruct (gather g (xs ++ ys)) as [os|] eqn:Hos; [|discriminate].
    intros [= <-]. destruct (IH os eq_refl) as (rx & ry & -> & -> & ->).
    exists (o ++ rx), ry. by rewrite app_assoc.
Qed.

Lemma gather_Forall {A R : Type} (g : A -> option (list R)) (P : A -> R -> Prop)
    (xs : list A) (rs : list R) :
  (forall x o, x ∈ xs -> g x = Some o -> Forall (P x) o) ->
  gather g xs = Some rs ->
  Forall (fun r => exists x, x ∈ xs /\ P x r) rs.
Proof.
  revert rs. induction xs as [|x xs IH]; intros rs Hg; simpl.
  - intros [= <-]. constructor.
  - destruct (g x) as [o|] eqn:Hx; [|discriminate].
    destruct (gather g xs) as [os|] eqn:Hos; [|discriminate].
    intros [= <-]. apply Forall_app. split.
    + eapply Forall_impl; [apply (Hg x o); [left | done]|].
      intros r Hr. exists x. split; [left | done].
    + eapply Forall_impl; [apply IH; [|done]|].
      * intros y o' Hy. apply Hg. by right.
      * intros r (y & Hy & Hr). exists y. split; [by right | done].
Qed.

Lemma gather_length {A R : Type} (g : A -> option (list R)) (n : A -> nat)
    (xs : list A) (rs : list R) :
  (forall x o, x ∈ xs -> g x = Some o -> length o = n x) ->
  gather g xs = Some rs ->
  length rs = list_sum (map n xs).
Proof.
  revert rs. induction xs as [|x xs IH]; intros rs Hg; simpl.
  - by intros [= <-].
  - destruct (g x) as [o|] eqn:Hx; [|discriminate].
    destruct (gather g xs) as [os|] eqn:Hos; [|discriminate].
    intros [= <-]. rewrite length_app, (Hg x o); [|left|done].
    f_equal. apply IH; [|done]. intros y o' Hy. apply Hg. by right.
Qed.

Section WellFormed.

Variables filename database_name cluster_name : PyVal.
Variables source_database_name source_cluster_name : PyVal.

Let col_rows := column_rows filename database_name cluster_name
                  source_database_name source_cluster_name.
Let tab_rows := table_rows filename database_name cluster_name
                  source_database_name source_cluster_name.
Let lin_rows := lineage_rows filename database_name cluster_name
                  source_database_name source_cluster_name.

Lemma column_rows_wf (td : TableDetails) (item : string * ColumnDetails) :
  is_Some (col_rows td item) <-> column_wf item.2 = true.
Proof.
  unfold col_rows, column_rows, column_wf.
  destruct (cd_lineage item.2) as [items|]; [|split; eauto].
  destruct (forallb item_complete items).
  - destruct (last items); split; eauto.
  - split; [intros [? ?]|]; discriminate.
Qed.

Lemma table_rows_wf (item : string * TableDetails) :
  is_Some (tab_rows item) <-> table_wf item.2 = true.
Proof.
  unfold tab_rows, table_rows, table_wf.
  destruct (td_columns item.2) as [columns|];
    [|split; [intros [? ?]|]; discriminate].
  destruct (truthy_columns columns).
  - rewrite gather_Some_iff, forallb_forall, Forall_forall.
    split; intros H x Hx.
    + apply (proj1 (column_rows_wf item.2 x)), H. by apply list_elem_of_In.
    + apply (proj2 (column_rows_wf item.2 x)), H. by apply list_elem_of_In.
  - destruct (td_schema item.2), (td_table item.2); simpl; split; eauto;
      try (intros [? ?]); discriminate.
Qed.

Lemma lineage_rows_wf (tables : dict TableDetails) :
  is_Some (lin_rows tables) <-> lineage_wf tables = true.
Proof.
  unfold lin_rows, lineage_rows, lineage_wf.
  rewrite gather_Some_iff, forallb_forall, Forall_forall.
  split; intros H x Hx.
  - apply (proj1 (table_rows_wf x)), H. by apply list_elem_of_In.
  - apply (proj2 (table_rows_wf x)), H. by apply list_elem_of_In.
Qed.

Lemma column_rows_length (td : TableDetails) (item : string * ColumnDetails)
    (rs : list (dict PyVal)) :
  col_rows td item = Some rs -> length rs = column_lineage_count item.2.
Proof.
  unfold col_rows, column_rows, column_lineage_count.
  destruct (cd_lineage item.2) as [items|]; [|by intros [= <-]].
  destruct (forallb item_complete items); [|discriminate].
  destruct (last items) eqn:Hlast; intros [= <-].
  - by rewrite length_replicate.
  - by apply last_None in Hlast as ->.
Qed.

Lemma table_rows_length (item : string * TableDetails) (rs : list (dict PyVal)) :
  tab_rows item = Some rs -> length rs = table_row_count item.2.
Proof.
  unfold tab_rows, table_rows, table_row_count.
  destruct (td_columns item.2) as [columns|]; [|discriminate].
  destruct (truthy_columns columns).
  - apply gather_length. intros x o _. apply column_rows_length.
  - destruct (td_schema item.2), (td_table item.2); try discriminate.
    by intros [= <-].
Qed.

Lemma lineage_rows_length (tables : dict TableDetails) (rs : list (dict PyVal)) :
  lin_rows tables = Some rs -> length rs = expected_row_count tables.
Proof.
  apply gather_length. intros x o _. apply table_rows_length.
Qed.

End WellFormed.

(** ** [convert_sql_to_metadata], case by case *)

Lemma converted_rows (rs : list (dict PyVal)) : pd.df_rows (converted rs) = rs.
Proof. reflexivity. Qed.

Section Convert.

Context `{Ext : External}.

Variables (filename : PyVal) (sql_stmt : string).
Variables database_name cluster_name schema_name table_name : PyVal.
Variables source_database_name source_cluster_name dialect : PyVal.

Let convert := convert_sql_to_metadata filename sql_stmt database_name
                 cluster_name schema_name table_name
                 source_database_name source_cluster_name dialect.
Let lin_rows := lineage_rows filename database_name cluster_name
                  source_database_name source_cluster_name.

Lemma run_frame_rows (tables : dict TableDetails) (w : World) :
  match lin_rows tables with
  | Some rs =>
      run_frame (for_each tables
                   (table_body filename database_name cluster_name
                      source_database_name source_cluster_name)) w
      = (Return rs, w)
  | None =>
      exists e,
        run_frame (for_each tables
                     (table_body filename database_name cluster_name
                        source_database_name source_cluster_name)) w
        = (Raise e, w)
  end.
Proof.
  assert (H := table_loop_emits filename database_name cluster_name
                 source_database_name source_cluster_name tables
                 empty_frame frame_ok_empty).
  unfold lin_rows, run_frame.
  destruct (lineage_rows _ _ _ _ _ tables) as [rs|].
  - destruct H as (fr' & -> & _ & ->). reflexivity.
  - destruct H as (e & fr' & ->). eauto.
Qed.

(** The extractor is called exactly once, whatever happens next. *)
Lemma convert_world (w : World) :
  (convert w).2 = logged w sql_stmt dialect.
Proof.
  unfold convert, convert_sql_to_metadata, try_reraise, bind, call_extractor,
    lift, raise, ret, logged.
  destruct (extract_sql_statements_lineage sql_stmt dialect) as [l|e];
    [|reflexivity].
  destruct (truthy_lineage l); [|reflexivity].
  assert (H := run_frame_rows (lineage_items l)
                 {| fs := fs w; calls := calls w ++ [(sql_stmt, dialect)] |}).
  destruct (lin_rows (lineage_items l)).
  - by rewrite H.
  - destruct H as [e ->]. reflexivity.
Qed.

Lemma convert_extractor_raises (w : World) (e : exn) :
  extract_sql_statements_lineage sql_stmt dialect = Raise e ->
  convert w = (Raise e, logged w sql_stmt dialect).
Proof.
  intros He. unfold convert, convert_sql_to_metadata, try_reraise, bind,
    call_extractor. by rewrite He.
Qed.

Lemma convert_falsy (w : World) (l : Lineage) :
  extract_sql_statements_lineage sql_stmt dialect = Return l ->
  truthy_lineage l = false ->
  convert w = (Raise (Exception "Column Lineage not found"),
               logged w sql_stmt dialect).
Proof.
  intros He Hl. unfold convert, convert_sql_to_metadata, try_reraise, bind,
    call_extractor. by rewrite He, Hl.
Qed.

Lemma convert_rows (w : World) (l : Lineage) (rs : list (dict PyVal)) :
  extract_sql_statements_lineage sql_stmt dialect = Return l ->
  truthy_lineage l = true ->
  lin_rows (lineage_items l) = Some rs ->
  convert w = (Return (converted rs), logged w sql_stmt dialect).
Proof.
  intros He Hl Hrs. unfold convert, convert_sql_to_metadata, try_reraise, bind,
    call_extractor. rewrite He, Hl.
  assert (H := run_frame_rows (lineage_items l)
                 {| fs := fs w; calls := calls w ++ [(sql_stmt, dialect)] |}).
  rewrite Hrs in H. by rewrite H.
Qed.

Lemma convert_malformed (w : World) (l : Lineage) :
  extract_sql_statements_lineage sql_stmt dialect = Return l ->
  truthy_lineage l = true ->
  lin_rows (lineage_items l) = None ->
  exists e, convert w = (Raise e, logged w sql_stmt dialect).
Proof.
  intros He Hl Hrs. unfold convert, convert_sql_to_metadata, try_reraise, bind,
    call_extractor. rewrite He, Hl.
  assert (H := run_frame_rows (lineage_items l)
                 {| fs := fs w; calls := calls w ++ [(sql_stmt, dialect)] |}).
  rewrite Hrs in H. destruct H as [e ->]. by exists e.
Qed.

(** A call that returns has seen a truthy, well-formed lineage result. *)
Lemma convert_returns (w w' : World) (df : DataFrame) :
  convert w = (Return df, w') ->
  exists l rs,
    extract_sql_statements_lineage sql_stmt dialect = Return l
    /\ truthy_lineage l = true
    /\ lin_rows (lineage_items l) = Some rs
    /\ df = converted rs.
Proof.
  intros H.
  destruct (extract_sql_statements_lineage sql_stmt dialect) as [l|e] eqn:He.
  - destruct (truthy_lineage l) eqn:Hl.
    + destruct (lin_rows (lineage_items l)) as [rs|] eqn:Hrs.
      * rewrite (convert_rows w l rs He Hl Hrs) in H. injection H as <- <-.
        by exists l, rs.
      * destruct (convert_malformed w l He Hl Hrs) as [e He'].
        rewrite He' in H. discriminate.
    + rewrite (convert_falsy w l He Hl) in H. discriminate.
  - rewrite (convert_extractor_raises w e He) in H. discriminate.
Qed.

(** The outcome of a call does not depend on the log of earlier calls. *)
Lemma convert_result_fs (w1 w2 : World) : (convert w1).1 = (convert w2).1.
Proof.
  destruct (extract_sql_statements_lineage sql_stmt dialect) as [l|e] eqn:He.
  - destruct (truthy_lineage l) eqn:Hl.
    + destruct (lin_rows (lineage_items l)) as [rs|] eqn:Hrs.
      * by rewrite (convert_rows w1 l rs), (convert_rows w2 l rs).
      * unfold convert, convert_sql_to_metadata, try_reraise, bind,
          call_extractor. rewrite He, Hl. unfold run_frame.
        by destruct (for_each _ _ empty_frame) as [[[]|] ?].
    + by rewrite (convert_falsy w1 l), (convert_falsy w2 l).
  - by rewrite (convert_extractor_raises w1 e), (convert_extractor_raises w2 e).
Qed.

End Convert.

(** ** Runs: what they log and when they write *)

Section Runs.

Context `{Ext : External}.

Lemma traced_pure {A : Type} (m : M World A) :
  (forall w, (m w).2 = w) -> traced m.
Proof.
  intros H w. rewrite H. split; [reflexivity|]. exists [].
  split; [by rewrite app_nil_r|]. intros c e Hc. by apply elem_of_nil in Hc.
Qed.

Lemma traced_bind {A B : Type} (m : M World A) (k : A -> M World B) :
  traced m -> (forall a, traced (k a)) -> traced (bind m k).
Proof.
  intros Hm Hk w. destruct (Hm w) as (Hfs & new & Hcalls & Hfault).
  unfold bind. destruct (m w) as [[a|e0] w1] eqn:Hmw; cbn [fst snd] in *.
  - destruct (Hk a w1) as (Hfs' & new' & Hcalls' & Hfault').
    split; [congruence|]. exists (new ++ new'). split.
    + by rewrite Hcalls', Hcalls, app_assoc.
    + intros c e [Hc|Hc]%elem_of_app Hce.
      * by specialize (Hfault c e Hc Hce).
      * by apply (Hfault' c).
  - split; [done|]. exists new. split; [done|].
    intros c e Hc Hce. specialize (Hfault c e Hc Hce). by injection Hfault as ->.
Qed.

Lemma traced_collect {A B : Type} (body : A -> M World B) (xs : list A) :
  (forall x, traced (body x)) ->
  forall acc, traced (collect xs body acc).
Proof.
  intros Hbody. induction xs as [|x xs IH]; intros acc; simpl.
  - by apply traced_pure.
  - apply traced_bind; [apply Hbody|]. intros b. apply IH.
Qed.

Lemma traced_convert (filename : PyVal) (sql_stmt : string)
    (database_name cluster_name schema_name table_name
     source_database_name source_cluster_name dialect : PyVal) :
  traced (convert_sql_to_metadata filename sql_stmt database_name cluster_name
            schema_name table_name source_database_name source_cluster_name
            dialect).
Proof.
  intros w. rewrite convert_world. split; [reflexivity|].
  exists [(sql_stmt, dialect)]. split; [reflexivity|].
  intros c e ->%list_elem_of_singleton. unfold call_fault. cbn [fst snd].
  destruct (extract_sql_statements_lineage sql_stmt dialect) as [l|e0] eqn:He.
  - destruct (truthy_lineage l) eqn:Hl; [discriminate|]. intros [= <-].
    by rewrite (convert_falsy _ _ _ _ _ _ _ _ _ w l He Hl).
  - intros [= <-]. by rewrite (convert_extractor_raises _ _ _ _ _ _ _ _ _ w e0 He).
Qed.

Lemma traced_read_file (p : string) : traced (read_file p).
Proof.
  apply traced_pure. intros w. unfold read_file.
  by destruct (files (fs w) !! p).
Qed.

Lemma traced_process_sql_file (sql_file : string)
    (database_name cluster_name schema_name
     source_database_name source_cluster_name dialect : PyVal) :
  traced (process_sql_file sql_file database_name cluster_name schema_name
            source_database_name source_cluster_name dialect).
Proof.
  apply traced_bind; [apply traced_read_file|].
  intros text. apply traced_convert.
Qed.

Lemma traced_process_dfs (input : string)
    (database_name cluster_name schema_name table_name
     source_database_name source_cluster_name dialect : PyVal) :
  traced (process_dfs input database_name cluster_name schema_name table_name
            source_database_name source_cluster_name dialect).
Proof.
  apply traced_bind; [by apply traced_pure|]. intros [|].
  - apply traced_bind; [apply traced_process_sql_file|].
    intros df. by apply traced_pure.
  - apply traced_bind; [by apply traced_pure|]. intros [|].
    + intros w. apply traced_collect. intros f. apply traced_process_sql_file.
    + apply traced_bind; [apply traced_convert|].
      intros df. by apply traced_pure.
Qed.

Variables (input output : string).
Variables database_name cluster_name schema_name table_name : PyVal.
Variables source_database_name source_cluster_name dialect : PyVal.

Let run := process input output database_name cluster_name schema_name
             table_name source_database_name source_cluster_name dialect.
Let run_dfs := process_dfs input database_name cluster_name schema_name
                 table_name source_database_name source_cluster_name dialect.

(** A run that ends with an exception has written nothing. *)
Lemma process_raise_no_write (w w' : World) (e : exn) :
  run w = (Raise e, w') -> fs w' = fs w.
Proof.
  unfold run, process, bind. fold run_dfs.
  destruct (traced_process_dfs input database_name cluster_name schema_name
              table_name source_database_name source_cluster_name dialect w)
    as [Hfs _]. fold run_dfs in Hfs.
  destruct (run_dfs w) as [[dfs|e0] w1]; cbn [snd] in Hfs.
  - unfold lift. destruct (pd.concat dfs) as [combined|e1].
    + unfold to_csv. destruct (bool_decide _); [|discriminate].
      intros [= _ <-]. exact Hfs.
    + intros [= _ <-]. exact Hfs.
  - intros [= _ <-]. exact Hfs.
Qed.

(** A faulty extractor call made during a run decides how the run ends. *)
Lemma process_fault (w : World) (new : list (string * PyVal))
    (c : string * PyVal) (e : exn) :
  calls (run w).2 = calls w ++ new ->
  c ∈ new ->
  call_fault c = Some e ->
  (run w).1 = Raise e.
Proof.
  unfold run, process, bind. fold run_dfs.
  destruct (traced_process_dfs input database_name cluster_name schema_name
              table_name source_database_name source_cluster_name dialect w)
    as (_ & new1 & Hcalls & Hfault). fold run_dfs in Hcalls, Hfault.
  destruct (run_dfs w) as [[dfs|e0] w1]; cbn [fst snd] in *.
  - assert (Hsame : forall new, calls
      (let (r, s') := lift (pd.concat dfs) w1 in
       match r with
       | Return a => to_csv a output false s'
       | Raise e1 => (Raise e1, s')
       end).2 = calls w ++ new -> new1 = new).
    { intros new0. unfold lift. destruct (pd.concat dfs) as [combined|e1].
      - unfold to_csv. destruct (bool_decide _); cbn [snd calls];
          rewrite Hcalls; apply app_inv_head.
      - cbn [snd]. rewrite Hcalls. apply app_inv_head. }
    intros <-%Hsame Hc Hce. by specialize (Hfault c e Hc Hce).
  - rewrite Hcalls. intros <-%app_inv_head Hc Hce.
    specialize (Hfault c e Hc Hce). by injection Hfault as ->.
Qed.

End Runs.

(** ** Concatenation and the final write *)

Lemma fold_concat2_rows (ds : list DataFrame) (d : DataFrame) :
  pd.df_rows (fold_left pd.concat2 ds d) = pd.df_rows d ++ concat (map pd.df_rows ds).
Proof.
  revert d. induction ds as [|x ds IH]; intros d; simpl.
  - by rewrite app_nil_r.
  - rewrite IH. unfold pd.concat2 at 1. cbn [pd.df_rows]. by rewrite <- app_assoc.
Qed.

Lemma concat_rows (dfs : list DataFrame) (combined : DataFrame) :
  pd.concat dfs = Return combined ->
  pd.df_rows combined = concat (map pd.df_rows dfs).
Proof.
  destruct dfs as [|d ds]; [discriminate|]. intros [= <-].
  apply fold_concat2_rows.
Qed.

Lemma concat_nonempty (dfs : list DataFrame) :
  dfs <> [] -> exists combined, pd.concat dfs = Return combined.
Proof. destruct dfs; [done|]. simpl. eauto. Qed.

Lemma csv_lines_no_index (df : DataFrame) :
  pd.csv_lines false df
  = pd.df_columns df
    :: map (fun r => map (fun c => pd.cell (Dict.get c r)) (pd.df_columns df))
         (pd.df_rows df).
Proof.
  unfold pd.csv_lines, pd.header, pd.record. f_equal.
  assert (H : forall i r, (@pair nat (dict PyVal) i r).2 = r) by done.
  revert H. generalize (@pair nat (dict PyVal)) as f.
  induction (pd.df_rows df) as [|r rs IH]; intros f Hf; simpl; [reflexivity|].
  rewrite Hf. f_equal. apply IH. intros i r'. apply Hf.
Qed.

Section Writes.

Context `{Ext : External}.

Variables database_name cluster_name schema_name : PyVal.
Variables source_database_name source_cluster_name dialect : PyVal.

Let one_file (sql_file : string) :=
  process_sql_file sql_file database_name cluster_name schema_name
    source_database_name source_cluster_name dialect.

Lemma process_sql_file_read (sql_file text : string) (w : World) :
  files (fs w) !! sql_file = Some text ->
  one_file sql_file w
  = convert_sql_to_metadata (PyStr sql_file) text database_name cluster_name
      schema_name (PyStr (stem sql_file))
      source_database_name source_cluster_name dialect w.
Proof.
  intros Hf. unfold one_file, process_sql_file, process_sql_file_with, bind, read_file. by rewrite Hf.
Qed.

(** What a file yields depends on the file system only. *)
Lemma process_sql_file_result (sql_file : string) (w1 w2 : World) :
  fs w1 = fs w2 -> (one_file sql_file w1).1 = (one_file sql_file w2).1.
Proof.
  intros Hfs. unfold one_file, process_sql_file, process_sql_file_with, bind, read_file.
  rewrite Hfs. destruct (files (fs w2) !! sql_file) as [text|]; [|reflexivity].
  apply convert_result_fs.
Qed.

Lemma collect_files (fl : list string) (w0 : World) :
  forall (dfs acc : list DataFrame) (w : World),
  fs w = fs w0 ->
  Forall2 (fun f df => (one_file f w0).1 = Return df) fl dfs ->
  exists w', collect fl one_file acc w = (Return (acc ++ dfs), w')
             /\ fs w' = fs w0.
Proof.
  induction fl as [|f fl IH]; intros dfs acc w Hfs Hall.
  - apply Forall2_nil_inv_l in Hall as ->. exists w. by rewrite app_nil_r.
  - apply Forall2_cons_inv_l in Hall as (df & dfs' & Hdf & Hall & ->).
    cbn [collect]. unfold bind.
    assert (Hr := process_sql_file_result f w w0 Hfs).
    assert (Ht := traced_process_sql_file f database_name cluster_name
                    schema_name source_database_name source_cluster_name
                    dialect w).
    fold (one_file f) in Ht. destruct Ht as [Hfs1 _].
    destruct (one_file f w) as [r w1]. cbn [fst snd] in *.
    rewrite Hdf in Hr. subst r.
    destruct (IH dfs' (acc ++ [df]) w1) as (w' & Hc & Hfs'); [congruence|done|].
    exists w'. by rewrite Hc, <- app_assoc.
Qed.

Variables (input output : string) (table_name : PyVal).

Lemma process_writes (w w1 : World) (dfs : list DataFrame) (combined : DataFrame) :
  process_dfs input database_name cluster_name schema_name table_name
    source_database_name source_cluster_name dialect w = (Return dfs, w1) ->
  pd.concat dfs = Return combined ->
  output ∉ dirs (fs w) ->
  process input output database_name cluster_name schema_name table_name
    source_database_name source_cluster_name dialect w
  = (Return tt, written w1 output (csv_text (pd.csv_lines false combined))).
Proof.
  intros Hdfs Hcat Hout. unfold process, bind, lift, to_csv.
  assert (Ht := traced_process_dfs input database_name cluster_name
                  schema_name table_name source_database_name
                  source_cluster_name dialect w).
  destruct Ht as [Hfs _]. rewrite Hdfs in *. cbn [snd] in Hfs.
  rewrite Hcat, Hfs. rewrite bool_decide_eq_false_2 by done.
  unfold written. by rewrite Hfs.
Qed.

End Writes.

(** ** The identifying fields of every row *)

Section Identify.

Variables filename database_name cluster_name : PyVal.
Variables source_database_name source_cluster_name : PyVal.

Lemma column_rows_identify (td : TableDetails) (item : string * ColumnDetails)
    (rs : list (dict PyVal)) :
  column_rows filename database_name cluster_name
    source_database_name source_cluster_name td item = Some rs ->
  Forall (row_identifies filename database_name cluster_name td) rs.
Proof.
  unfold column_rows. destruct (cd_lineage item.2) as [items|].
  - destruct (forallb item_complete items); [|discriminate].
    destruct (last items) as [li|]; intros [= <-]; [|constructor].
    apply Forall_replicate. by repeat split.
  - intros [= <-]. constructor.
Qed.

Lemma table_rows_identify (item : string * TableDetails) (rs : list (dict PyVal)) :
  table_rows filename database_name cluster_name
    source_database_name source_cluster_name item = Some rs ->
  Forall (row_identifies filename database_name cluster_name item.2) rs.
Proof.
  unfold table_rows. destruct (td_columns item.2) as [columns|]; [|discriminate].
  destruct (truthy_columns columns).
  - intros Hrs.
    eapply Forall_impl;
      [apply (gather_Forall _ (fun _ => row_identifies filename database_name
                                          cluster_name item.2) _ _)
         with (2 := Hrs)|].
    + intros x o _. apply column_rows_identify.
    + by intros row (_ & _ & H).
  - destruct (td_schema item.2) as [s|] eqn:Hs; [|discriminate].
    destruct (td_table item.2) as [t|] eqn:Ht; [|discriminate].
    intros [= <-]. constructor; [|constructor].
    unfold row_identifies. rewrite Hs, Ht. by repeat split.
Qed.

Lemma lineage_rows_identify (tables : dict TableDetails) (rs : list (dict PyVal)) :
  lineage_rows filename database_name cluster_name
    source_database_name source_cluster_name tables = Some rs ->
  Forall (fun row => exists item, item ∈ tables
            /\ row_identifies filename database_name cluster_name item.2 row) rs.
Proof.
  apply (gather_Forall _ (fun item => row_identifies filename database_name
                                        cluster_name item.2)).
  intros x o _. apply table_rows_identify.
Qed.

End Identify.

(** ** The columns of a returned frame *)

Section Header.

Variables filename database_name cluster_name : PyVal.
Variables source_database_name source_cluster_name : PyVal.

Lemma column_rows_keys (td : TableDetails) (item : string * ColumnDetails)
    (rs : list (dict PyVal)) :
  column_rows filename database_name cluster_name
    source_database_name source_cluster_name td item = Some rs ->
  Forall (fun row => Dict.keys row = full_keys) rs.
Proof.
  unfold column_rows. destruct (cd_lineage item.2) as [items|].
  - destruct (forallb item_complete items); [|discriminate].
    destruct (last items) as [li|]; intros [= <-]; [|constructor].
    by apply Forall_replicate.
  - intros [= <-]. constructor.
Qed.

Lemma lineage_rows_keys (tables : dict TableDetails) (rs : list (dict PyVal)) :
  lineage_rows filename database_name cluster_name
    source_database_name source_cluster_name tables = Some rs ->
  Forall (fun row => Dict.keys row = bare_keys \/ Dict.keys row = full_keys) rs.
Proof.
  intros Hrs.
  eapply Forall_impl;
    [apply (gather_Forall _ (fun _ row => Dict.keys row = bare_keys
                                          \/ Dict.keys row = full_keys) _ _)
       with (2 := Hrs)|].
  - intros [fq td] o _. unfold table_rows. cbn [fst snd].
    destruct (td_columns td) as [columns|]; [|discriminate].
    destruct (truthy_columns columns).
    + intros Ho.
      eapply Forall_impl;
        [apply (gather_Forall _ (fun _ row => Dict.keys row = full_keys) _ _)
           with (2 := Ho)|].
      * intros x o' _. apply column_rows_keys.
      * intros row (_ & _ & H). by right.
    + destruct (td_schema td), (td_table td); try discriminate.
      intros [= <-]. constructor; [by left | constructor].
  - by intros row (_ & _ & H).
Qed.

(** The columns [pd.DataFrame(rows)] finds are those of the longest kind of
    row it has seen. *)
Lemma of_rows_columns_from (rs : list (dict PyVal)) :
  Forall (fun row => Dict.keys row = bare_keys \/ Dict.keys row = full_keys) rs ->
  forall (acc : list string) (seen : bool),
    (if seen then acc = full_keys else acc = [] \/ acc = bare_keys) ->
    let acc' := fold_left (fun acc r => pd.union_columns acc (Dict.keys r)) rs acc in
    if seen || existsb has_lineage_keys rs
    then acc' = full_keys else acc' = [] \/ acc' = bare_keys.
Proof.
  induction 1 as [|row rs Hrow _ IH]; intros acc seen Hacc; cbn [fold_left existsb].
  - by rewrite orb_false_r.
  - unfold has_lineage_keys at 1. rewrite orb_assoc.
    apply IH. destruct Hrow as [-> | ->].
    + destruct seen; [by subst acc|]. destruct Hacc as [-> | ->]; by right.
    + rewrite orb_true_r. destruct seen; [by subst acc|].
      by destruct Hacc as [-> | ->].
Qed.

(** The header of a returned frame: the fourteen columns the frame is
    created with, followed by [filter_type] and [filter] exactly when some
    row comes from a lineage item. *)
Lemma converted_columns (tables : dict TableDetails) (rs : list (dict PyVal)) :
  lineage_rows filename database_name cluster_name
    source_database_name source_cluster_name tables = Some rs ->
  pd.df_columns (converted rs)
  = metadata_columns
    ++ (if existsb has_lineage_keys rs then ["filter_type"; "filter"] else []).
Proof.
  intros Hrs. apply lineage_rows_keys in Hrs.
  assert (H := of_rows_columns_from rs Hrs [] false (or_introl eq_refl)).
  cbn [orb] in H. unfold converted, pd.concat2, pd.of_rows. cbn [pd.df_columns].
  destruct (existsb has_lineage_keys rs).
  - by rewrite H.
  - by destruct H as [-> | ->].
Qed.

End Header.

(** ** [Path.stem] on the path of a file *)









(** * The properties of the specification, C1 to C10 *)

(** C1, at an input where the code departs from it.  A column with the two
    lineage items [a.x] and [b.y] yields two rows, and both carry the source
    table of the second item: the inner loop appends the same dictionary
    twice and the second pass overwrites what the first one stored.  The
    third row is the table without columns. *)
Theorem shared_row_keeps_last_item :
  map li_table [Stub.item "a" "x"; Stub.item "b" "y"]
  = [Some (PyStr "a"); Some (PyStr "b")]
  /\ map (Dict.get "source_table_name")
       (result_rows
          (convert_sql_to_metadata (Ext := Stub.ext) PyNone
             "SELECT a.x + b.y AS total FROM a, b" (PyStr "hive") (PyStr "c")
             PyNone PyNone PyNone PyNone PyNone Stub.world).1)
     = [Some (PyStr "b"); Some (PyStr "b"); None].
Proof. split; reflexivity. Qed.

(** C2.  When the extractor returns a non-empty, well-formed lineage result,
    [convert_sql_to_metadata] returns a frame whose number of rows is the sum,
    over the tables, of the lineage-item counts of their columns, a table
    without columns counting for one row. *)
Theorem row_count `{Ext : External} (filename : PyVal) (sql_stmt : string)
    (database_name cluster_name schema_name table_name
     source_database_name source_cluster_name dialect : PyVal)
    (w : World) (l : Lineage) :
  extract_sql_statements_lineage sql_stmt dialect = Return l ->
  truthy_lineage l = true ->
  lineage_wf (lineage_items l) = true ->
  exists df,
    convert_sql_to_metadata filename sql_stmt database_name cluster_name
      schema_name table_name source_database_name source_cluster_name dialect w
    = (Return df, logged w sql_stmt dialect)
    /\ length (pd.df_rows df) = expected_row_count (lineage_items l).
Proof.
  intros He Hl Hwf.
  apply (lineage_rows_wf filename database_name cluster_name
           source_database_name source_cluster_name) in Hwf as [rs Hrs].
  exists (converted rs). split.
  - by apply convert_rows with (l := l).
  - rewrite converted_rows. by eapply lineage_rows_length.
Qed.

Lemma row_count_witness :
  extract_sql_statements_lineage (External := Stub.ext)
    "SELECT a.x + b.y AS total FROM a, b" PyNone = Return Stub.two_sources
  /\ truthy_lineage Stub.two_sources = true
  /\ lineage_wf (lineage_items Stub.two_sources) = true
  /\ exists df,
       convert_sql_to_metadata (Ext := Stub.ext) PyNone
         "SELECT a.x + b.y AS total FROM a, b" (PyStr "hive") (PyStr "c")
         PyNone PyNone PyNone PyNone PyNone Stub.world
       = (Return df,
          logged Stub.world "SELECT a.x + b.y AS total FROM a, b" PyNone)
       /\ length (pd.df_rows df) = 3.
Proof.
  split; [reflexivity|]. split; [reflexivity|]. split; [reflexivity|].
  apply (row_count (Ext := Stub.ext) PyNone
           "SELECT a.x + b.y AS total FROM a, b" (PyStr "hive") (PyStr "c")
           PyNone PyNone PyNone PyNone PyNone Stub.world Stub.two_sources);
    reflexivity.
Defined.

(** C3.  When the extractor returns a falsy lineage result for a statement,
    [convert_sql_to_metadata] raises the lineage-not-found exception, and a
    run of [process] in which that call is made ends with this exception
    and leaves the file system as it was: the CSV is not written. *)
Theorem falsy_lineage_not_found `{Ext : External} (sql_stmt : string)
    (dialect : PyVal) (l : Lineage) :
  extract_sql_statements_lineage sql_stmt dialect = Return l ->
  truthy_lineage l = false ->
  (forall (filename database_name cluster_name schema_name table_name
           source_database_name source_cluster_name : PyVal) (w : World),
     convert_sql_to_metadata filename sql_stmt database_name cluster_name
       schema_name table_name source_database_name source_cluster_name dialect w
     = (Raise (Exception "Column Lineage not found"), logged w sql_stmt dialect))
  /\ (forall (input output : string)
        (database_name cluster_name schema_name table_name
         source_database_name source_cluster_name run_dialect : PyVal)
        (w : World) (new : list (string * PyVal)),
        let run := process input output database_name cluster_name schema_name
                     table_name source_database_name source_cluster_name
                     run_dialect w in
        calls run.2 = calls w ++ new ->
        (sql_stmt, dialect) ∈ new ->
        run.1 = Raise (Exception "Column Lineage not found")
        /\ fs run.2 = fs w).
Proof.
  intros He Hl. split.
  - intros. by apply convert_falsy with (l := l).
  - intros input output d c s t sd sc rd w new run Hcalls Hin.
    assert (Hr : run.1 = Raise (Exception "Column Lineage not found")).
    { apply (process_fault input output d c s t sd sc rd w new
               (sql_stmt, dialect)); [done|done|].
      unfold call_fault. cbn [fst snd]. by rewrite He, Hl. }
    split; [done|].
    apply (process_raise_no_write input output d c s t sd sc rd w run.2
             (Exception "Column Lineage not found")).
    fold run. rewrite <- Hr. by destruct run.
Qed.

Lemma falsy_lineage_not_found_witness :
  extract_sql_statements_lineage (External := Stub.ext) "SELECT 1" PyNone
  = Return (LineageDict [])
  /\ truthy_lineage (LineageDict []) = false
  /\ convert_sql_to_metadata (Ext := Stub.ext) PyNone "SELECT 1" (PyStr "hive")
       (PyStr "c") PyNone (PyStr "t") PyNone PyNone PyNone Stub.world
     = (Raise (Exception "Column Lineage not found"),
        logged Stub.world "SELECT 1" PyNone)
  /\ (process (Ext := Stub.ext) "SELECT 1" "out.csv" (PyStr "hive") (PyStr "c")
        PyNone (PyStr "t") PyNone PyNone PyNone Stub.world).1
     = Raise (Exception "Column Lineage not found")
  /\ fs (process (Ext := Stub.ext) "SELECT 1" "out.csv" (PyStr "hive") (PyStr "c")
           PyNone (PyStr "t") PyNone PyNone PyNone Stub.world).2
     = fs Stub.world.
Proof.
  split; [reflexivity|]. split; [reflexivity|].
  destruct (falsy_lineage_not_found (Ext := Stub.ext) "SELECT 1" PyNone
              (LineageDict []) eq_refl eq_refl) as [Hconvert Hrun].
  split; [apply Hconvert|].
  apply (Hrun "SELECT 1" "out.csv" (PyStr "hive") (PyStr "c") PyNone (PyStr "t")
           PyNone PyNone PyNone Stub.world [("SELECT 1", PyNone)]).
  - reflexivity.
  - apply list_elem_of_singleton. reflexivity.
Defined.

(** C4.  An exception that the extractor raises for a statement comes out of
    [convert_sql_to_metadata] as it is, after exactly one call of the
    extractor, and a run of [process] in which that call is made ends with
    the same exception and leaves the file system as it was. *)
Theorem extractor_exception_propagates `{Ext : External} (sql_stmt : string)
    (dialect : PyVal) (e : exn) :
  extract_sql_statements_lineage sql_stmt dialect = Raise e ->
  (forall (filename database_name cluster_name schema_name table_name
           source_database_name source_cluster_name : PyVal) (w : World),
     convert_sql_to_metadata filename sql_stmt database_name cluster_name
       schema_name table_name source_database_name source_cluster_name dialect w
     = (Raise e, {| fs := fs w; calls := calls w ++ [(sql_stmt, dialect)] |}))
  /\ (forall (input output : string)
        (database_name cluster_name schema_name table_name
         source_database_name source_cluster_name run_dialect : PyVal)
        (w : World) (new : list (string * PyVal)),
        let run := process input output database_name cluster_name schema_name
                     table_name source_database_name source_cluster_name
                     run_dialect w in
        calls run.2 = calls w ++ new ->
        (sql_stmt, dialect) ∈ new ->
        run.1 = Raise e /\ fs run.2 = fs w).
Proof.
  intros He. split.
  - intros. by apply convert_extractor_raises.
  - intros input output d c s t sd sc rd w new run Hcalls Hin.
    assert (Hr : run.1 = Raise e).
    { apply (process_fault input output d c s t sd sc rd w new
               (sql_stmt, dialect)); [done|done|].
      unfold call_fault. cbn [fst snd]. by rewrite He. }
    split; [done|].
    apply (process_raise_no_write input output d c s t sd sc rd w run.2 e).
    fold run. rewrite <- Hr. by destruct run.
Qed.

Lemma extractor_exception_propagates_witness :
  extract_sql_statements_lineage (External := Stub.ext) "SELEC" PyNone
  = Raise (OtherError "ParseError" "SELEC")
  /\ convert_sql_to_metadata (Ext := Stub.ext) PyNone "SELEC" (PyStr "hive")
       (PyStr "c") PyNone (PyStr "t") PyNone PyNone PyNone Stub.world
     = (Raise (OtherError "ParseError" "SELEC"),
        {| fs := fs Stub.world; calls := [("SELEC", PyNone)] |})
  /\ (process (Ext := Stub.ext) "SELEC" "out.csv" (PyStr "hive") (PyStr "c")
        PyNone (PyStr "t") PyNone PyNone PyNone Stub.world).1
     = Raise (OtherError "ParseError" "SELEC")
  /\ fs (process (Ext := Stub.ext) "SELEC" "out.csv" (PyStr "hive") (PyStr "c")
           PyNone (PyStr "t") PyNone PyNone PyNone Stub.world).2
     = fs Stub.world.
Proof.
  split; [reflexivity|].
  destruct (extractor_exception_propagates (Ext := Stub.ext) "SELEC" PyNone
              (OtherError "ParseError" "SELEC") eq_refl) as [Hconvert Hrun].
  split; [apply Hconvert|].
  apply (Hrun "SELEC" "out.csv" (PyStr "hive") (PyStr "c") PyNone (PyStr "t")
           PyNone PyNone PyNone Stub.world [("SELEC", PyNone)]).
  - reflexivity.
  - apply list_elem_of_singleton. reflexivity.
Defined.

(** C5.  When the extractor returns a non-empty, well-formed lineage result,
    every row of the frame that [convert_sql_to_metadata] returns has the
    [filename], [database_name] and [cluster_name] passed as arguments. *)
Theorem constant_identifying_fields `{Ext : External} (filename : PyVal)
    (sql_stmt : string)
    (database_name cluster_name schema_name table_name
     source_database_name source_cluster_name dialect : PyVal)
    (w : World) (l : Lineage) :
  extract_sql_statements_lineage sql_stmt dialect = Return l ->
  truthy_lineage l = true ->
  lineage_wf (lineage_items l) = true ->
  exists df,
    convert_sql_to_metadata filename sql_stmt database_name cluster_name
      schema_name table_name source_database_name source_cluster_name dialect w
    = (Return df, logged w sql_stmt dialect)
    /\ Forall (fun row =>
                 Dict.get "filename" row = Some filename
                 /\ Dict.get "database_name" row = Some database_name
                 /\ Dict.get "cluster_name" row = Some cluster_name)
         (pd.df_rows df).
Proof.
  intros He Hl Hwf.
  apply (lineage_rows_wf filename database_name cluster_name
           source_database_name source_cluster_name) in Hwf as [rs Hrs].
  exists (converted rs). split.
  - by apply convert_rows with (l := l).
  - rewrite converted_rows.
    eapply Forall_impl; [by eapply lineage_rows_identify|].
    intros row (item & _ & Hf & Hd & Hc & _). done.
Qed.

Lemma constant_identifying_fields_witness :
  extract_sql_statements_lineage (External := Stub.ext)
    "SELECT a.x + b.y AS total FROM a, b" PyNone = Return Stub.two_sources
  /\ truthy_lineage Stub.two_sources = true
  /\ lineage_wf (lineage_items Stub.two_sources) = true
  /\ exists df,
       convert_sql_to_metadata (Ext := Stub.ext) (PyStr "q.sql")
         "SELECT a.x + b.y AS total FROM a, b" (PyStr "hive") (PyStr "c")
         PyNone PyNone PyNone PyNone PyNone Stub.world
       = (Return df,
          logged Stub.world "SELECT a.x + b.y AS total FROM a, b" PyNone)
       /\ Forall (fun row =>
                    Dict.get "filename" row = Some (PyStr "q.sql")
                    /\ Dict.get "database_name" row = Some (PyStr "hive")
                    /\ Dict.get "cluster_name" row = Some (PyStr "c"))
            (pd.df_rows df).
Proof.
  split; [reflexivity|]. split; [reflexivity|]. split; [reflexivity|].
  apply (constant_identifying_fields (Ext := Stub.ext) (PyStr "q.sql")
           "SELECT a.x + b.y AS total FROM a, b" (PyStr "hive") (PyStr "c")
           PyNone PyNone PyNone PyNone PyNone Stub.world Stub.two_sources);
    reflexivity.
Defined.

(** C6.  A table of the lineage result whose columns are empty or falsy
    contributes exactly one row, between the rows of the tables before it and
    those of the tables after it; that row holds [filename], [database_name],
    [cluster_name], the table's own schema as [schema_name] and its own table
    as [table_name], and no other key. *)
Theorem table_without_columns_one_row `{Ext : External} (filename : PyVal)
    (sql_stmt : string)
    (database_name cluster_name schema_name table_name
     source_database_name source_cluster_name dialect : PyVal)
    (w : World) (l : Lineage)
    (earlier later : dict TableDetails) (fq_table_name : string)
    (table_details : TableDetails) (columns : Columns) :
  extract_sql_statements_lineage sql_stmt dialect = Return l ->
  truthy_lineage l = true ->
  lineage_wf (lineage_items l) = true ->
  lineage_items l = earlier ++ (fq_table_name, table_details) :: later ->
  td_columns table_details = Some columns ->
  truthy_columns columns = false ->
  exists (s t : PyVal) (before after : list (dict PyVal)) (df : DataFrame),
    td_schema table_details = Some s
    /\ td_table table_details = Some t
    /\ lineage_rows filename database_name cluster_name
         source_database_name source_cluster_name earlier = Some before
    /\ lineage_rows filename database_name cluster_name
         source_database_name source_cluster_name later = Some after
    /\ convert_sql_to_metadata filename sql_stmt database_name cluster_name
         schema_name table_name source_database_name source_cluster_name
         dialect w
       = (Return df, logged w sql_stmt dialect)
    /\ pd.df_rows df
       = before
         ++ [ [ ("filename", filename); ("database_name", database_name);
                ("cluster_name", cluster_name); ("schema_name", s);
                ("table_name", t) ] ]
         ++ after.
Proof.
  intros He Hl Hwf Hsplit Hcols Hfalsy.
  apply (lineage_rows_wf filename database_name cluster_name
           source_database_name source_cluster_name) in Hwf as [rs Hrs].
  assert (Hconv := convert_rows filename sql_stmt database_name cluster_name
                     schema_name table_name source_database_name
                     source_cluster_name dialect w l rs He Hl Hrs).
  rewrite Hsplit in Hrs. unfold lineage_rows in Hrs.
  apply gather_app in Hrs as (before & rest & Hbefore & Hrest & ->).
  cbn [gather] in Hrest. unfold table_rows at 1 in Hrest. cbn [fst snd] in Hrest.
  rewrite Hcols, Hfalsy in Hrest.
  destruct (td_schema table_details) as [s|]; [|discriminate].
  destruct (td_table table_details) as [t|]; [|discriminate].
  destruct (gather _ later) as [after|] eqn:Hafter; [|discriminate].
  injection Hrest as <-.
  exists s, t, before, after, (converted (before ++ [bare_row filename
    database_name cluster_name s t] ++ after)).
  by repeat split.
Qed.

Lemma table_without_columns_one_row_witness :
  exists (s t : PyVal) (before after : list (dict PyVal)) (df : DataFrame),
    Some (PyStr "db") = Some s
    /\ Some (PyStr "u") = Some t
    /\ length before = 2
    /\ after = []
    /\ convert_sql_to_metadata (Ext := Stub.ext) PyNone
         "SELECT a.x + b.y AS total FROM a, b" (PyStr "hive") (PyStr "c")
         PyNone PyNone PyNone PyNone PyNone Stub.world
       = (Return df,
          logged Stub.world "SELECT a.x + b.y AS total FROM a, b" PyNone)
    /\ pd.df_rows df
       = before
         ++ [ [ ("filename", PyNone); ("database_name", PyStr "hive");
                ("cluster_name", PyStr "c"); ("schema_name", s);
                ("table_name", t) ] ]
         ++ after.
Proof.
  destruct (table_without_columns_one_row (Ext := Stub.ext) PyNone
              "SELECT a.x + b.y AS total FROM a, b" (PyStr "hive") (PyStr "c")
              PyNone PyNone PyNone PyNone PyNone Stub.world Stub.two_sources
              [("db.v",
                {| td_schema := Some (PyStr "db"); td_table := Some (PyStr "v");
                   td_columns := Some (ColumnsDict
                     [ ("total", {| cd_data_type := Some (PyStr "int");
                                    cd_lineage := Some [Stub.item "a" "x";
                                                        Stub.item "b" "y"] |}) ]) |})]
              [] "db.u"
              {| td_schema := Some (PyStr "db"); td_table := Some (PyStr "u");
                 td_columns := Some (ColumnsDict []) |}
              (ColumnsDict [])
              eq_refl eq_refl eq_refl eq_refl eq_refl eq_refl)
    as (s & t & before & after & df & Hs & Ht & Hbefore & Hafter & Hconv & Hrows).
  exists s, t, before, after, df.
  split; [exact Hs|]. split; [exact Ht|].
  split; [by injection Hbefore as <-|]. split; [by injection Hafter as <-|].
  split; [exact Hconv | exact Hrows].
Defined.



(** C8, at an input where the code departs from it.  For a statement whose
    lineage result holds only a table without columns the run succeeds and
    replaces the stale file at the destination, with one data line for the
    one row and no index cell, but the header has the fourteen columns the
    frame is created with: [filter_type] and [filter] are missing. *)
Theorem header_without_lineage_rows :
  let run := process (Ext := Stub.ext) "CREATE TABLE u (id int)" "out.csv"
               (PyStr "hive") (PyStr "c") PyNone (PyStr "u") PyNone PyNone
               PyNone Stub.world in
  files (fs Stub.world) !! "out.csv" = Some "stale"
  /\ run.1 = Return tt
  /\ files (fs run.2) !! "out.csv"
     = Some (csv_text (External := Stub.ext)
               [ [ "filename"; "database_name"; "cluster_name"; "schema_name";
                   "table_name"; "column_name"; "column_data_type";
                   "expression"; "message"; "source_database_name";
                   "source_cluster_name"; "source_schema_name";
                   "source_table_name"; "source_column_name" ];
                 [ EmptyString; "hive"; "c"; "db"; "u"; EmptyString;
                   EmptyString; EmptyString; EmptyString; EmptyString;
                   EmptyString; EmptyString; EmptyString; EmptyString ] ]).
Proof. repeat split; vm_compute; reflexivity. Qed.

(** C9, as stated, fails for a directory in which no [.sql] file is found:
    there is nothing to concatenate, the run ends with a [ValueError] and no
    table results. *)
Lemma empty_directory_no_table :
  rglob (External := Stub.ext) (fs Stub.world) "empty" "*.sql" = []
  /\ process (Ext := Stub.ext) "empty" "out.csv" (PyStr "hive") (PyStr "c")
       PyNone PyNone PyNone PyNone PyNone Stub.world
     = (Raise (ValueError "No objects to concatenate"), Stub.world)
  /\ ~ exists w',
         process (Ext := Stub.ext) "empty" "out.csv" (PyStr "hive") (PyStr "c")
           PyNone PyNone PyNone PyNone PyNone Stub.world
         = (Return tt, w').
Proof.
  split; [reflexivity|]. split; [reflexivity|]. intros [w' H]. discriminate H.
Qed.

(** C9, amended.  For a directory in which at least one [.sql] file is found,
    and whose files each yield a frame when processed on their own, the run
    succeeds and writes the concatenation of these frames in the order of
    discovery: its rows are the rows of the first file's frame, then those of
    the second, and so on. *)
Theorem directory_concatenation `{Ext : External} (input output : string)
    (database_name cluster_name schema_name table_name
     source_database_name source_cluster_name dialect : PyVal)
    (w : World) (dfs : list DataFrame) :
  files (fs w) !! input = None ->
  input ∈ dirs (fs w) ->
  output ∉ dirs (fs w) ->
  rglob (fs w) input "*.sql" <> [] ->
  Forall2 (fun sql_file df =>
             (process_sql_file sql_file database_name cluster_name schema_name
                source_database_name source_cluster_name dialect w).1
             = Return df)
    (rglob (fs w) input "*.sql") dfs ->
  exists (combined : DataFrame) (w1 : World),
    pd.concat dfs = Return combined
    /\ pd.df_rows combined = concat (map pd.df_rows dfs)
    /\ fs w1 = fs w
    /\ process input output database_name cluster_name schema_name table_name
         source_database_name source_cluster_name dialect w
       = (Return tt, written w1 output (csv_text (pd.csv_lines false combined))).
Proof.
  intros Hnofile Hdir Hout Hfound Hall.
  destruct (collect_files database_name cluster_name schema_name
              source_database_name source_cluster_name dialect
              (rglob (fs w) input "*.sql") w dfs [] w eq_refl Hall)
    as (w1 & Hcollect & Hfs).
  assert (Hdfs : dfs <> []).
  { intros ->. by apply Forall2_nil_inv_r in Hall. }
  destruct (concat_nonempty dfs Hdfs) as [combined Hcat].
  exists combined, w1. split; [done|]. split; [by apply concat_rows|].
  split; [done|]. apply process_writes with (dfs := dfs); [|done|done].
  unfold process_dfs, isfile, isdir. unfold bind at 1.
  rewrite bool_decide_eq_false_2 by (rewrite Hnofile; by intros [? ?]).
  unfold bind at 1. rewrite bool_decide_eq_true_2 by done.
  exact Hcollect.
Qed.

Lemma directory_concatenation_witness :
  exists (combined : DataFrame) (w1 : World),
    (process_sql_file (Ext := Stub.ext) "sql/a.sql" (PyStr "hive") (PyStr "c")
       PyNone PyNone PyNone PyNone Stub.world).1 = Return Stub.first_frame
    /\ (process_sql_file (Ext := Stub.ext) "sql/sub/b.sql" (PyStr "hive")
          (PyStr "c") PyNone PyNone PyNone PyNone Stub.world).1
       = Return Stub.second_frame
    /\ pd.concat [Stub.first_frame; Stub.second_frame] = Return combined
    /\ pd.df_rows combined
       = pd.df_rows Stub.first_frame ++ pd.df_rows Stub.second_frame
    /\ process (Ext := Stub.ext) "sql" "out.csv" (PyStr "hive") (PyStr "c")
         PyNone PyNone PyNone PyNone PyNone Stub.world
       = (Return tt,
          written w1 "out.csv"
            (csv_text (External := Stub.ext) (pd.csv_lines false combined))).
Proof.
  assert (Hfirst : (process_sql_file (Ext := Stub.ext) "sql/a.sql" (PyStr "hive")
                      (PyStr "c") PyNone PyNone PyNone PyNone Stub.world).1
                   = Return Stub.first_frame) by (vm_compute; reflexivity).
  assert (Hsecond : (process_sql_file (Ext := Stub.ext) "sql/sub/b.sql"
                       (PyStr "hive") (PyStr "c") PyNone PyNone PyNone PyNone
                       Stub.world).1
                    = Return Stub.second_frame) by (vm_compute; reflexivity).
  destruct (directory_concatenation (Ext := Stub.ext) "sql" "out.csv"
              (PyStr "hive") (PyStr "c") PyNone PyNone PyNone PyNone PyNone
              Stub.world [Stub.first_frame; Stub.second_frame])
    as (combined & w1 & Hcat & Hrows & _ & Hrun).
  - reflexivity.
  - vm_compute. reflexivity.
  - vm_compute. intros H. discriminate H.
  - discriminate.
  - constructor; [exact Hfirst|]. constructor; [exact Hsecond|]. constructor.
  - exists combined, w1. split; [exact Hfirst|]. split; [exact Hsecond|].
    split; [exact Hcat|]. split; [|exact Hrun]. rewrite Hrows. reflexivity.
Defined.

(** C10.  The [schema_name] and [table_name] arguments of
    [convert_sql_to_metadata] have no effect: two calls that differ in them
    only give the same outcome, and in every row of a returned frame the
    [schema_name] and [table_name] are those of a table of the lineage
    result. *)
Theorem table_and_schema_arguments_unused `{Ext : External} (filename : PyVal)
    (sql_stmt : string)
    (database_name cluster_name schema_name table_name schema_name' table_name'
     source_database_name source_cluster_name dialect : PyVal) (w : World) :
  convert_sql_to_metadata filename sql_stmt database_name cluster_name
    schema_name table_name source_database_name source_cluster_name dialect w
  = convert_sql_to_metadata filename sql_stmt database_name cluster_name
      schema_name' table_name' source_database_name source_cluster_name dialect w
  /\ forall (df : DataFrame) (w' : World),
       convert_sql_to_metadata filename sql_stmt database_name cluster_name
         schema_name table_name source_database_name source_cluster_name
         dialect w
       = (Return df, w') ->
       exists l,
         extract_sql_statements_lineage sql_stmt dialect = Return l
         /\ Forall (fun row =>
                      exists item, item ∈ lineage_items l
                        /\ Dict.get "schema_name" row
                           = Some (dict_get_or_None (td_schema item.2))
                        /\ Dict.get "table_name" row
                           = Some (dict_get_or_None (td_table item.2)))
              (pd.df_rows df).
Proof.
  split; [reflexivity|]. intros df w' Hconv.
  apply convert_returns in Hconv as (l & rs & He & _ & Hrs & ->).
  exists l. split; [done|]. rewrite converted_rows.
  eapply Forall_impl; [by eapply lineage_rows_identify|].
  intros row (item & Hitem & _ & _ & _ & Hs & Ht). by exists item.
Qed.

Lemma table_and_schema_arguments_unused_witness :
  convert_sql_to_metadata (Ext := Stub.ext) PyNone "SELECT id FROM t"
    (PyStr "hive") (PyStr "c") (PyStr "ignored") (PyStr "also ignored")
    PyNone PyNone PyNone Stub.world
  = convert_sql_to_metadata (Ext := Stub.ext) PyNone "SELECT id FROM t"
      (PyStr "hive") (PyStr "c") PyNone PyNone PyNone PyNone PyNone Stub.world
  /\ convert_sql_to_metadata (Ext := Stub.ext) PyNone "SELECT id FROM t"
       (PyStr "hive") (PyStr "c") (PyStr "ignored") (PyStr "also ignored")
       PyNone PyNone PyNone Stub.world
     = (Return Stub.literal_frame, logged Stub.world "SELECT id FROM t" PyNone)
  /\ exists l,
       extract_sql_statements_lineage (External := Stub.ext)
         "SELECT id FROM t" PyNone = Return l
       /\ Forall (fun row =>
                    exists item, item ∈ lineage_items l
                      /\ Dict.get "schema_name" row
                         = Some (dict_get_or_None (td_schema item.2))
                      /\ Dict.get "table_name" row
                         = Some (dict_get_or_None (td_table item.2)))
            (pd.df_rows Stub.literal_frame).
Proof.
  assert (Hconv : convert_sql_to_metadata (Ext := Stub.ext) PyNone
                    "SELECT id FROM t" (PyStr "hive") (PyStr "c")
                    (PyStr "ignored") (PyStr "also ignored")
                    PyNone PyNone PyNone Stub.world
                  = (Return Stub.literal_frame,
                     logged Stub.world "SELECT id FROM t" PyNone))
    by (vm_compute; reflexivity).
  destruct (table_and_schema_arguments_unused (Ext := Stub.ext) PyNone
              "SELECT id FROM t" (PyStr "hive") (PyStr "c")
              (PyStr "ignored") (PyStr "also ignored") PyNone PyNone
              PyNone PyNone PyNone Stub.world) as [Hsame Hrows].
  split; [exact Hsame|]. split; [exact Hconv|].
  exact (Hrows _ _ Hconv).
Defined.

(** * Further properties of the code *)

(** ** Which exceptions the loops can raise *)

Lemma only_raises_bind {S A B : Type} (P : exn -> Prop) (m : M S A)
    (k : A -> M S B) :
  only_raises P m -> (forall a, only_raises P (k a)) -> only_raises P (bind m k).
Proof.
  intros Hm Hk s e s'. unfold bind.
  destruct (m s) as [[a|e0] s1] eqn:Hms.
  - apply Hk.
  - intros [= <- <-]. by eapply Hm.
Qed.

Lemma only_raises_for_each {S A : Type} (P : exn -> Prop) (xs : list A)
    (body : A -> M S unit) :
  (forall x, only_raises P (body x)) -> only_raises P (for_each xs body).
Proof.
  intros Hbody. induction xs as [|x xs IH]; simpl.
  - intros s e s'. discriminate.
  - apply only_raises_bind; [apply Hbody | intros _; exact IH].
Qed.

Lemma only_raises_getitem {S A : Type} (P : exn -> Prop) (key : string)
    (o : option A) :
  P (KeyError key) -> only_raises (S := S) P (getitem key o).
Proof.
  intros HP s e s'. destruct o; simpl; [discriminate|]. by intros [= <- <-].
Qed.

Lemma only_raises_setitem (P : exn -> Prop) (r : ref) (k : string) (v : PyVal) :
  only_raises P (setitem r k v).
Proof. intros s e s'. discriminate. Qed.

Lemma only_raises_new_dict (P : exn -> Prop) : only_raises P new_dict.
Proof. intros s e s'. discriminate. Qed.

Lemma only_raises_rows_append (P : exn -> Prop) (r : ref) :
  only_raises P (rows_append r).
Proof. intros s e s'. discriminate. Qed.

Lemma only_raises_ret {S A : Type} (P : exn -> Prop) (a : A) :
  only_raises (S := S) P (ret a).
Proof. intros s e s'. discriminate. Qed.

Lemma missing_key_intro (k : string) :
  Dict.mem k subscripted_keys = true -> missing_key (KeyError k).
Proof.
  intros Hk. exists k. split; [reflexivity|].
  apply list_elem_of_In. apply existsb_exists in Hk as (k' & Hin & Heq).
  by apply String.eqb_eq in Heq as ->.
Qed.

Ltac only_missing_keys :=
  repeat first
    [ apply only_raises_setitem
    | apply only_raises_new_dict
    | apply only_raises_rows_append
    | apply only_raises_ret
    | apply only_raises_getitem; by apply missing_key_intro
    | apply only_raises_bind; [|intros ?] ].

Lemma lineage_item_body_raises (row : ref) (sdb scl : PyVal) (li : LineageItem) :
  only_raises missing_key (lineage_item_body row sdb scl li).
Proof. unfold lineage_item_body. only_missing_keys. Qed.

Lemma column_body_raises (f d c sdb scl : PyVal) (td : TableDetails)
    (item : string * ColumnDetails) :
  only_raises missing_key (column_body f d c sdb scl td item).
Proof.
  destruct item as [cn cd]. unfold column_body. only_missing_keys.
  destruct (cd_lineage cd); [|apply only_raises_ret].
  apply only_raises_for_each. intros li. apply lineage_item_body_raises.
Qed.

Lemma table_body_raises (f d c sdb scl : PyVal) (item : string * TableDetails) :
  only_raises missing_key (table_body f d c sdb scl item).
Proof.
  destruct item as [fq td]. unfold table_body. only_missing_keys.
  destruct (truthy_columns _).
  - apply only_raises_for_each. intros x. apply column_body_raises.
  - only_missing_keys.
Qed.

Section ConvertOutcome.

Context `{Ext : External}.

Variables (filename : PyVal) (sql_stmt : string).
Variables database_name cluster_name schema_name table_name : PyVal.
Variables source_database_name source_cluster_name dialect : PyVal.

Lemma convert_raise_kind (w w' : World) (l : Lineage) (e : exn) :
  extract_sql_statements_lineage sql_stmt dialect = Return l ->
  truthy_lineage l = true ->
  convert_sql_to_metadata filename sql_stmt database_name cluster_name
    schema_name table_name source_database_name source_cluster_name dialect w
  = (Raise e, w') ->
  missing_key e.
Proof.
  intros He Hl. unfold convert_sql_to_metadata, try_reraise, bind,
    call_extractor, run_frame. rewrite He, Hl.
  destruct (for_each _ _ empty_frame) as [[[]|e0] fr] eqn:Hloop.
  - discriminate.
  - intros [= <- _].
    eapply (only_raises_for_each missing_key); [|exact Hloop].
    intros x. apply table_body_raises.
Qed.

End ConvertOutcome.

(** X1.  [convert_sql_to_metadata] returns a frame exactly when the extractor
    returns a non-empty mapping in which every key the code subscripts is
    present; the frame then holds the rows the three loops leave. *)
Theorem convert_returns_iff `{Ext : External} (filename : PyVal)
    (sql_stmt : string)
    (database_name cluster_name schema_name table_name
     source_database_name source_cluster_name dialect : PyVal) (w : World) :
  (exists df,
     (convert_sql_to_metadata filename sql_stmt database_name cluster_name
        schema_name table_name source_database_name source_cluster_name
        dialect w).1 = Return df)
  <-> (exists l,
         extract_sql_statements_lineage sql_stmt dialect = Return l
         /\ truthy_lineage l = true
         /\ lineage_wf (lineage_items l) = true).
Proof.
  split.
  - intros [df Hdf].
    destruct (convert_sql_to_metadata _ _ _ _ _ _ _ _ _ w) as [r w'] eqn:Hconv.
    cbn [fst] in Hdf. subst r.
    apply convert_returns in Hconv as (l & rs & He & Hl & Hrs & _).
    exists l. split; [done|]. split; [done|].
    eapply lineage_rows_wf. by rewrite Hrs.
  - intros (l & He & Hl & Hwf).
    apply (lineage_rows_wf filename database_name cluster_name
             source_database_name source_cluster_name) in Hwf as [rs Hrs].
    exists (converted rs).
    by rewrite (convert_rows _ _ _ _ _ _ _ _ _ w l rs He Hl Hrs).
Qed.

(** X2.  When the extractor returns a non-empty mapping in which a key the
    code subscripts is missing, [convert_sql_to_metadata] raises a
    [KeyError] for one of the subscripted keys, after its one call of the
    extractor; no frame with the rows met so far is returned. *)
Theorem missing_key_raises_key_error `{Ext : External} (filename : PyVal)
    (sql_stmt : string)
    (database_name cluster_name schema_name table_name
     source_database_name source_cluster_name dialect : PyVal)
    (w : World) (l : Lineage) :
  extract_sql_statements_lineage sql_stmt dialect = Return l ->
  truthy_lineage l = true ->
  lineage_wf (lineage_items l) = false ->
  exists k,
    k ∈ subscripted_keys
    /\ convert_sql_to_metadata filename sql_stmt database_name cluster_name
         schema_name table_name source_database_name source_cluster_name
         dialect w
       = (Raise (KeyError k), logged w sql_stmt dialect).
Proof.
  intros He Hl Hwf.
  destruct (lineage_rows filename database_name cluster_name
              source_database_name source_cluster_name (lineage_items l))
    as [rs|] eqn:Hrs.
  - assert (Hsome : lineage_wf (lineage_items l) = true).
    { eapply lineage_rows_wf. by rewrite Hrs. }
    congruence.
  - destruct (convert_malformed filename sql_stmt database_name cluster_name
                schema_name table_name source_database_name
                source_cluster_name dialect w l He Hl Hrs) as [e Hconv].
    destruct (convert_raise_kind _ _ _ _ _ _ _ _ _ w _ l e He Hl Hconv)
      as (k & -> & Hk).
    by exists k.
Qed.

Lemma missing_key_raises_key_error_witness :
  extract_sql_statements_lineage (External := Fixture.ext) "SELECT broken" PyNone
  = Return Fixture.malformed
  /\ truthy_lineage Fixture.malformed = true
  /\ lineage_wf (lineage_items Fixture.malformed) = false
  /\ exists k,
       k ∈ subscripted_keys
       /\ convert_sql_to_metadata (Ext := Fixture.ext) PyNone "SELECT broken"
            (PyStr "hive") (PyStr "c") PyNone PyNone PyNone PyNone PyNone
            Fixture.world
          = (Raise (KeyError k), logged Fixture.world "SELECT broken" PyNone).
Proof.
  split; [reflexivity|]. split; [reflexivity|]. split; [reflexivity|].
  apply (missing_key_raises_key_error (Ext := Fixture.ext) PyNone
           "SELECT broken" (PyStr "hive") (PyStr "c") PyNone PyNone PyNone
           PyNone PyNone Fixture.world Fixture.malformed); reflexivity.
Defined.

Lemma witness_convert_returns_iff :
  (exists df,
     (convert_sql_to_metadata (Ext := Fixture.ext) PyNone "SELECT id FROM t"
        (PyStr "hive") (PyStr "c") PyNone PyNone PyNone PyNone PyNone
        Fixture.world).1 = Return df)
  /\ ~ (exists df,
          (convert_sql_to_metadata (Ext := Fixture.ext) PyNone "SELECT broken"
             (PyStr "hive") (PyStr "c") PyNone PyNone PyNone PyNone PyNone
             Fixture.world).1 = Return df).
Proof.
  split.
  - apply (convert_returns_iff (Ext := Fixture.ext)).
    exists Stub.one_source. repeat split; reflexivity.
  - intros H. apply (convert_returns_iff (Ext := Fixture.ext)) in H
      as (l & He & _ & Hwf).
    injection He as <-. discriminate Hwf.
Defined.

(** X3.  Whatever the outcome, a call of [convert_sql_to_metadata] invokes
    the extractor exactly once, on its statement and dialect, and leaves the
    file system alone; its result does not depend on the files or on the
    calls made before. *)
Theorem convert_one_call_no_io `{Ext : External} (filename : PyVal)
    (sql_stmt : string)
    (database_name cluster_name schema_name table_name
     source_database_name source_cluster_name dialect : PyVal) (w w2 : World) :
  (convert_sql_to_metadata filename sql_stmt database_name cluster_name
     schema_name table_name source_database_name source_cluster_name
     dialect w).2
  = {| fs := fs w; calls := calls w ++ [(sql_stmt, dialect)] |}
  /\ (convert_sql_to_metadata filename sql_stmt database_name cluster_name
        schema_name table_name source_database_name source_cluster_name
        dialect w).1
     = (convert_sql_to_metadata filename sql_stmt database_name cluster_name
          schema_name table_name source_database_name source_cluster_name
          dialect w2).1.
Proof. split; [apply convert_world | apply convert_result_fs]. Qed.

(** ** Rows, column by column *)

Lemma gather_app_Some {A R : Type} (g : A -> option (list R)) (xs ys : list A)
    (rx ry : list R) :
  gather g xs = Some rx -> gather g ys = Some ry ->
  gather g (xs ++ ys) = Some (rx ++ ry).
Proof.
  revert rx. induction xs as [|x xs IH]; intros rx; simpl.
  - by intros [= <-].
  - destruct (g x) as [o|]; [|discriminate].
    destruct (gather g xs) as [os|]; [|discriminate].
    intros [= <-] Hys. rewrite (IH os eq_refl Hys). by rewrite app_assoc.
Qed.

Lemma truthy_columns_middle (before after : dict ColumnDetails)
    (item : string * ColumnDetails) :
  truthy_columns (ColumnsDict (before ++ item :: after)) = true.
Proof. by destruct before. Qed.

(** X4.  A column with lineage items contributes as many consecutive rows as
    it has items, after the rows of the earlier tables and of the earlier
    columns of its table, and all these rows are equal: each holds the
    identifying fields, the column's name, its data type or ['NA'], the
    source database and cluster passed as arguments, and the seven fields of
    the last lineage item.  With a single item the one row carries the fields
    of that item. *)
Theorem column_rows_share_last_item `{Ext : External} (filename : PyVal)
    (sql_stmt : string)
    (database_name cluster_name schema_name table_name
     source_database_name source_cluster_name dialect : PyVal)
    (w : World) (l : Lineage)
    (earlier later : dict TableDetails) (fq_table_name : string)
    (table_details : TableDetails)
    (columns_before columns_after : dict ColumnDetails) (column_name : string)
    (column_details : ColumnDetails) (items : list LineageItem)
    (lineage_item : LineageItem) :
  extract_sql_statements_lineage sql_stmt dialect = Return l ->
  lineage_wf (lineage_items l) = true ->
  lineage_items l = earlier ++ (fq_table_name, table_details) :: later ->
  td_columns table_details
  = Some (ColumnsDict (columns_before
                       ++ (column_name, column_details) :: columns_after)) ->
  cd_lineage column_details = Some items ->
  last items = Some lineage_item ->
  exists (before_tables before_columns after : list (dict PyVal))
         (df : DataFrame),
    lineage_rows filename database_name cluster_name
      source_database_name source_cluster_name earlier = Some before_tables
    /\ gather (column_rows filename database_name cluster_name
                 source_database_name source_cluster_name table_details)
         columns_before = Some before_columns
    /\ convert_sql_to_metadata filename sql_stmt database_name cluster_name
         schema_name table_name source_database_name source_cluster_name
         dialect w
       = (Return df, logged w sql_stmt dialect)
    /\ pd.df_rows df
       = before_tables ++ before_columns
         ++ replicate (length items)
              [ ("filename", filename); ("database_name", database_name);
                ("cluster_name", cluster_name);
                ("schema_name", dict_get_or_None (td_schema table_details));
                ("table_name", dict_get_or_None (td_table table_details));
                ("column_name", PyStr column_name);
                ("column_data_type", column_data_type column_details);
                ("source_database_name", source_database_name);
                ("source_cluster_name", source_cluster_name);
                ("source_schema_name", dict_get_or_None (li_schema lineage_item));
                ("source_table_name", dict_get_or_None (li_table lineage_item));
                ("source_column_name", dict_get_or_None (li_column lineage_item));
                ("expression", dict_get_or_None (li_expression lineage_item));
                ("filter_type", dict_get_or_None (li_filter_type lineage_item));
                ("filter", dict_get_or_None (li_filter lineage_item));
                ("message", dict_get_or_None (li_message lineage_item)) ]
         ++ after.
Proof.
  intros He Hwf Hsplit Hcols Hitems Hlast.
  assert (Hl : truthy_lineage l = true).
  { destruct l as [|d]; cbn [lineage_items] in Hsplit.
    - by destruct earlier.
    - subst d. by destruct earlier. }
  apply (lineage_rows_wf filename database_name cluster_name
           source_database_name source_cluster_name) in Hwf as [rs Hrs].
  assert (Hconv := convert_rows filename sql_stmt database_name cluster_name
                     schema_name table_name source_database_name
                     source_cluster_name dialect w l rs He Hl Hrs).
  rewrite Hsplit in Hrs. unfold lineage_rows in Hrs.
  apply gather_app in Hrs as (before_tables & rest & Hbefore & Hrest & ->).
  cbn [gather] in Hrest. unfold table_rows at 1 in Hrest. cbn [fst snd] in Hrest.
  rewrite Hcols, truthy_columns_middle in Hrest. cbn [columns_items] in Hrest.
  destruct (gather _ (columns_before ++ _)) as [mid|] eqn:Hmid; [|discriminate].
  destruct (gather _ later) as [after_tables|]; [|discriminate].
  injection Hrest as <-.
  apply gather_app in Hmid as (before_columns & rest & Hbc & Hrest & ->).
  cbn [gather] in Hrest. unfold column_rows at 1 in Hrest. cbn [fst snd] in Hrest.
  rewrite Hitems, Hlast in Hrest.
  destruct (forallb item_complete items); [|discriminate].
  destruct (gather _ columns_after) as [after_columns|]; [|discriminate].
  injection Hrest as <-.
  exists before_tables, before_columns, (after_columns ++ after_tables),
    (converted (before_tables
                ++ (before_columns
                    ++ replicate (length items)
                         (full_row filename database_name cluster_name
                            source_database_name source_cluster_name
                            table_details column_name column_details
                            lineage_item)
                    ++ after_columns) ++ after_tables)).
  split; [done|]. split; [done|]. split; [done|].
  rewrite converted_rows. unfold full_row. by rewrite <- !app_assoc.
Qed.

Lemma column_rows_share_last_item_witness :
  exists (before_tables before_columns after : list (dict PyVal))
         (df : DataFrame),
    convert_sql_to_metadata (Ext := Fixture.ext) PyNone
      "SELECT a.x + b.y AS total FROM a, b" (PyStr "hive") (PyStr "c")
      PyNone PyNone PyNone PyNone PyNone Fixture.world
    = (Return df,
       logged Fixture.world "SELECT a.x + b.y AS total FROM a, b" PyNone)
    /\ before_tables = [] /\ before_columns = []
    /\ pd.df_rows df
       = before_tables ++ before_columns
         ++ replicate 2
              [ ("filename", PyNone); ("database_name", PyStr "hive");
                ("cluster_name", PyStr "c"); ("schema_name", PyStr "db");
                ("table_name", PyStr "v"); ("column_name", PyStr "total");
                ("column_data_type", PyStr "int");
                ("source_database_name", PyNone);
                ("source_cluster_name", PyNone);
                ("source_schema_name", PyStr "db");
                ("source_table_name", PyStr "b");
                ("source_column_name", PyStr "y");
                ("expression", PyStr "y"); ("filter_type", PyNone);
                ("filter", PyNone); ("message", PyNone) ]
         ++ after.
Proof.
  destruct (column_rows_share_last_item (Ext := Fixture.ext) PyNone
              "SELECT a.x + b.y AS total FROM a, b" (PyStr "hive") (PyStr "c")
              PyNone PyNone PyNone PyNone PyNone Fixture.world Stub.two_sources
              []
              [("db.u",
                {| td_schema := Some (PyStr "db"); td_table := Some (PyStr "u");
                   td_columns := Some (ColumnsDict []) |})]
              "db.v"
              {| td_schema := Some (PyStr "db"); td_table := Some (PyStr "v");
                 td_columns := Some (ColumnsDict
                   [ ("total", {| cd_data_type := Some (PyStr "int");
                                  cd_lineage := Some [Stub.item "a" "x";
                                                      Stub.item "b" "y"] |}) ]) |}
              [] [] "total"
              {| cd_data_type := Some (PyStr "int");
                 cd_lineage := Some [Stub.item "a" "x"; Stub.item "b" "y"] |}
              [Stub.item "a" "x"; Stub.item "b" "y"] (Stub.item "b" "y")
              eq_refl eq_refl eq_refl eq_refl eq_refl eq_refl)
    as (bt & bc & after & df & Hbt & Hbc & Hconv & Hrows).
  injection Hbt as <-. injection Hbc as <-.
  exists [], [], after, df. split; [exact Hconv|].
  split; [reflexivity|]. split; [reflexivity|]. exact Hrows.
Defined.

Lemma lineage_rows_Forall (P : dict PyVal -> Prop)
    (filename database_name cluster_name
     source_database_name source_cluster_name : PyVal)
    (tables : dict TableDetails) (rs : list (dict PyVal)) :
  (forall td cn cd li,
     P (full_row filename database_name cluster_name
          source_database_name source_cluster_name td cn cd li)) ->
  (forall s t, P (bare_row filename database_name cluster_name s t)) ->
  lineage_rows filename database_name cluster_name
    source_database_name source_cluster_name tables = Some rs ->
  Forall P rs.
Proof.
  intros Hfull Hbare Hrs.
  eapply Forall_impl;
    [apply (gather_Forall _ (fun _ row => P row) _ _) with (2 := Hrs)|].
  - intros [fq td] o _. unfold table_rows. cbn [fst snd].
    destruct (td_columns td) as [columns|]; [|discriminate].
    destruct (truthy_columns columns).
    + intros Ho.
      eapply Forall_impl;
        [apply (gather_Forall _ (fun _ row => P row) _ _) with (2 := Ho)|].
      * intros [cn cd] o' _. unfold column_rows. cbn [fst snd].
        destruct (cd_lineage cd) as [items|]; [|intros [= <-]; constructor].
        destruct (forallb item_complete items); [|discriminate].
        destruct (last items) as [li|]; intros [= <-]; [|constructor].
        apply Forall_replicate. apply Hfull.
      * by intros row (_ & _ & H).
    + destruct (td_schema td), (td_table td); try discriminate.
      intros [= <-]. constructor; [apply Hbare | constructor].
  - by intros row (_ & _ & H).
Qed.

Lemma column_data_type_truthy (cd : ColumnDetails) :
  truthy (column_data_type cd) = true.
Proof.
  unfold column_data_type.
  by destruct (cd_data_type cd) as [[|[|]]|].
Qed.

(** X5.  In a returned frame the [column_data_type] of a row is never [None]
    and never the empty string: a row either has no column at all (a table
    without columns) or a non-empty data type, ['NA'] standing in for a
    missing, [None] or empty one. *)
Theorem column_data_type_never_empty `{Ext : External} (filename : PyVal)
    (sql_stmt : string)
    (database_name cluster_name schema_name table_name
     source_database_name source_cluster_name dialect : PyVal)
    (w w' : World) (df : DataFrame) :
  convert_sql_to_metadata filename sql_stmt database_name cluster_name
    schema_name table_name source_database_name source_cluster_name dialect w
  = (Return df, w') ->
  Forall (fun row =>
            match Dict.get "column_data_type" row with
            | Some v => truthy v = true
            | None => Dict.get "column_name" row = None
            end)
    (pd.df_rows df).
Proof.
  intros Hconv.
  apply convert_returns in Hconv as (l & rs & _ & _ & Hrs & ->).
  rewrite converted_rows.
  eapply lineage_rows_Forall; [| |exact Hrs].
  - intros td cn cd li. cbn. apply column_data_type_truthy.
  - intros s t. reflexivity.
Qed.

Lemma column_data_type_never_empty_witness :
  convert_sql_to_metadata (Ext := Stub.ext) PyNone "SELECT id FROM t"
    (PyStr "hive") (PyStr "c") (PyStr "ignored") (PyStr "also ignored")
    PyNone PyNone PyNone Stub.world
  = (Return Stub.literal_frame, logged Stub.world "SELECT id FROM t" PyNone)
  /\ Forall (fun row =>
               match Dict.get "column_data_type" row with
               | Some v => truthy v = true
               | None => Dict.get "column_name" row = None
               end)
       (pd.df_rows Stub.literal_frame).
Proof.
  assert (Hconv : convert_sql_to_metadata (Ext := Stub.ext) PyNone
                    "SELECT id FROM t" (PyStr "hive") (PyStr "c")
                    (PyStr "ignored") (PyStr "also ignored")
                    PyNone PyNone PyNone Stub.world
                  = (Return Stub.literal_frame,
                     logged Stub.world "SELECT id FROM t" PyNone))
    by (vm_compute; reflexivity).
  split; [exact Hconv|].
  exact (column_data_type_never_empty (Ext := Stub.ext) _ _ _ _ _ _ _ _ _ _ _ _
           Hconv).
Defined.

(** X6.  Rows are laid out table by table, in the order of the extractor's
    mapping: when the mapping returned for a statement is the one returned
    for a first statement followed by the one returned for a second, and the
    first two convert, the third converts too and its rows are the rows of
    the first followed by the rows of the second. *)
Theorem rows_follow_table_order `{Ext : External} (filename : PyVal)
    (first second whole : string)
    (database_name cluster_name schema_name table_name
     source_database_name source_cluster_name dialect : PyVal)
    (w1 w2 w : World) (l1 l2 : Lineage) (df1 df2 : DataFrame) :
  extract_sql_statements_lineage first dialect = Return l1 ->
  extract_sql_statements_lineage second dialect = Return l2 ->
  extract_sql_statements_lineage whole dialect
  = Return (LineageDict (lineage_items l1 ++ lineage_items l2)) ->
  (convert_sql_to_metadata filename first database_name cluster_name
     schema_name table_name source_database_name source_cluster_name
     dialect w1).1 = Return df1 ->
  (convert_sql_to_metadata filename second database_name cluster_name
     schema_name table_name source_database_name source_cluster_name
     dialect w2).1 = Return df2 ->
  exists df,
    convert_sql_to_metadata filename whole database_name cluster_name
      schema_name table_name source_database_name source_cluster_name
      dialect w
    = (Return df, logged w whole dialect)
    /\ pd.df_rows df = pd.df_rows df1 ++ pd.df_rows df2.
Proof.
  intros He1 He2 He H1 H2.
  destruct (convert_sql_to_metadata _ first _ _ _ _ _ _ _ w1) as [r1 w1'] eqn:Hc1.
  destruct (convert_sql_to_metadata _ second _ _ _ _ _ _ _ w2) as [r2 w2'] eqn:Hc2.
  cbn [fst] in H1, H2. subst r1 r2.
  apply convert_returns in Hc1 as (l1' & rs1 & He1' & Hl1 & Hrs1 & ->).
  apply convert_returns in Hc2 as (l2' & rs2 & He2' & _ & Hrs2 & ->).
  rewrite He1 in He1'. injection He1' as <-.
  rewrite He2 in He2'. injection He2' as <-.
  exists (converted (rs1 ++ rs2)). split; [|by rewrite !converted_rows].
  apply convert_rows with (l := LineageDict (lineage_items l1 ++ lineage_items l2));
    [done| |].
  - destruct l1 as [|[|x d]]; try discriminate. reflexivity.
  - cbn [lineage_items]. by apply gather_app_Some.
Qed.

Lemma rows_follow_table_order_witness :
  (convert_sql_to_metadata (Ext := Fixture.ext) PyNone "SELECT id FROM t"
     (PyStr "hive") (PyStr "c") PyNone PyNone PyNone PyNone PyNone
     Fixture.world).1 = Return Fixture.one_frame
  /\ (convert_sql_to_metadata (Ext := Fixture.ext) PyNone
        "SELECT a.x + b.y AS total FROM a, b" (PyStr "hive") (PyStr "c")
        PyNone PyNone PyNone PyNone PyNone Fixture.world).1
     = Return Fixture.two_frame
  /\ exists df,
       convert_sql_to_metadata (Ext := Fixture.ext) PyNone
         "SELECT id FROM t; SELECT a.x + b.y AS total FROM a, b"
         (PyStr "hive") (PyStr "c") PyNone PyNone PyNone PyNone PyNone
         Fixture.world
       = (Return df,
          logged Fixture.world
            "SELECT id FROM t; SELECT a.x + b.y AS total FROM a, b" PyNone)
       /\ pd.df_rows df
          = pd.df_rows Fixture.one_frame ++ pd.df_rows Fixture.two_frame.
Proof.
  assert (H1 : (convert_sql_to_metadata (Ext := Fixture.ext) PyNone
                  "SELECT id FROM t" (PyStr "hive") (PyStr "c") PyNone PyNone
                  PyNone PyNone PyNone Fixture.world).1
               = Return Fixture.one_frame) by (vm_compute; reflexivity).
  assert (H2 : (convert_sql_to_metadata (Ext := Fixture.ext) PyNone
                  "SELECT a.x + b.y AS total FROM a, b" (PyStr "hive")
                  (PyStr "c") PyNone PyNone PyNone PyNone PyNone
                  Fixture.world).1
               = Return Fixture.two_frame) by (vm_compute; reflexivity).
  split; [exact H1|]. split; [exact H2|].
  exact (rows_follow_table_order (Ext := Fixture.ext) PyNone
           "SELECT id FROM t" "SELECT a.x + b.y AS total FROM a, b"
           "SELECT id FROM t; SELECT a.x + b.y AS total FROM a, b"
           (PyStr "hive") (PyStr "c") PyNone PyNone PyNone PyNone PyNone
           Fixture.world Fixture.world Fixture.world
           Stub.one_source Stub.two_sources Fixture.one_frame Fixture.two_frame
           eq_refl eq_refl eq_refl H1 H2).
Defined.

(** X7.  The columns of a returned frame are the fourteen it is created
    with, in that order, followed by [filter_type] and [filter] exactly when
    one of its rows comes from a lineage item. *)
Theorem frame_columns `{Ext : External} (filename : PyVal) (sql_stmt : string)
    (database_name cluster_name schema_name table_name
     source_database_name source_cluster_name dialect : PyVal)
    (w w' : World) (df : DataFrame) :
  convert_sql_to_metadata filename sql_stmt database_name cluster_name
    schema_name table_name source_database_name source_cluster_name dialect w
  = (Return df, w') ->
  pd.df_columns df
  = [ "filename"; "database_name"; "cluster_name"; "schema_name"; "table_name";
      "column_name"; "column_data_type"; "expression"; "message";
      "source_database_name"; "source_cluster_name"; "source_schema_name";
      "source_table_name"; "source_column_name" ]
    ++ (if existsb has_lineage_keys (pd.df_rows df)
        then ["filter_type"; "filter"] else []).
Proof.
  intros Hconv.
  apply convert_returns in Hconv as (l & rs & _ & _ & Hrs & ->).
  rewrite converted_rows. by eapply converted_columns.
Qed.

Lemma frame_columns_witness :
  convert_sql_to_metadata (Ext := Stub.ext) PyNone "SELECT id FROM t"
    (PyStr "hive") (PyStr "c") (PyStr "ignored") (PyStr "also ignored")
    PyNone PyNone PyNone Stub.world
  = (Return Stub.literal_frame, logged Stub.world "SELECT id FROM t" PyNone)
  /\ pd.df_columns Stub.literal_frame
     = metadata_columns ++ ["filter_type"; "filter"].
Proof.
  assert (Hconv : convert_sql_to_metadata (Ext := Stub.ext) PyNone
                    "SELECT id FROM t" (PyStr "hive") (PyStr "c")
                    (PyStr "ignored") (PyStr "also ignored")
                    PyNone PyNone PyNone Stub.world
                  = (Return Stub.literal_frame,
                     logged Stub.world "SELECT id FROM t" PyNone))
    by (vm_compute; reflexivity).
  split; [exact Hconv|].
  exact (frame_columns (Ext := Stub.ext) _ _ _ _ _ _ _ _ _ _ _ _ Hconv).
Defined.

(** ** Runs of [process] *)

(** X8.  A run of [process] reads and converts every statement before it
    writes: collecting the frames changes no file and no directory, so a run
    that fails while it reads, extracts, flattens or concatenates ends with
    the exception of that step and with the file system it started from.
    The one path a run can change is [output], in its last step, and a run
    that returns has left there the CSV of the concatenated frames. *)
Theorem process_writes_last `{Ext : External} (input output : string)
    (database_name cluster_name schema_name table_name
     source_database_name source_cluster_name dialect : PyVal) (w : World) :
  let run := process input output database_name cluster_name schema_name
               table_name source_database_name source_cluster_name dialect w in
  let collected := process_dfs input database_name cluster_name schema_name
                     table_name source_database_name source_cluster_name
                     dialect w in
  fs collected.2 = fs w
  /\ (forall e, collected.1 = Raise e -> run.1 = Raise e /\ fs run.2 = fs w)
  /\ (forall dfs e,
        collected.1 = Return dfs -> pd.concat dfs = Raise e ->
        run.1 = Raise e /\ fs run.2 = fs w)
  /\ dirs (fs run.2) = dirs (fs w)
  /\ (forall p, p <> output -> files (fs run.2) !! p = files (fs w) !! p)
  /\ (forall dfs,
        collected.1 = Return dfs -> run.1 = Return tt ->
        exists combined,
          pd.concat dfs = Return combined
          /\ files (fs run.2) !! output
             = Some (csv_text (pd.csv_lines false combined))).
Proof.
  intros run collected. subst run collected. unfold process, bind.
  destruct (traced_process_dfs input database_name cluster_name schema_name
              table_name source_database_name source_cluster_name dialect w)
    as [Hfs _].
  destruct (process_dfs _ _ _ _ _ _ _ _ w) as [[dfs|e0] w1];
    cbn [fst snd] in *.
  - split; [done|]. split; [intros e H; discriminate H|].
    unfold lift. destruct (pd.concat dfs) as [combined|e1] eqn:Hcat.
    + unfold to_csv. destruct (bool_decide _); cbn [fst snd fs files dirs].
      * rewrite Hfs. split; [intros ? ? [= <-] H; rewrite Hcat in H; discriminate H|].
        split; [done|]. split; [done|]. intros ? _ H. discriminate H.
      * rewrite Hfs. split; [intros ? ? [= <-] H; rewrite Hcat in H; discriminate H|].
        split; [done|]. split.
        { intros p Hp. by rewrite lookup_insert_ne. }
        intros dfs' [= <-] _. exists combined. split; [done|].
        by rewrite lookup_insert_eq.
    + cbn [fst snd]. rewrite Hfs. split.
      { intros dfs' e [= <-] He. rewrite Hcat in He. by injection He as ->. }
      split; [done|]. split; [done|]. intros ? _ H. discriminate H.
  - split; [done|]. split.
    { intros e [= <-]. by rewrite Hfs. }
    split; [intros ? ? H; discriminate H|]. rewrite Hfs.
    split; [done|]. split; [done|]. intros ? H. discriminate H.
Qed.

Lemma process_writes_last_witness :
  let failing := process (Ext := Fixture.ext) "jobs" "out.csv" (PyStr "hive")
                   (PyStr "c") PyNone PyNone PyNone PyNone PyNone
                   Fixture.world in
  let run := process (Ext := Fixture.ext) "sql" "out.csv" (PyStr "hive")
               (PyStr "c") PyNone PyNone PyNone PyNone PyNone Fixture.world in
  (process_dfs (Ext := Fixture.ext) "jobs" (PyStr "hive") (PyStr "c") PyNone
     PyNone PyNone PyNone PyNone Fixture.world).1 = Raise (KeyError "filter")
  /\ failing.1 = Raise (KeyError "filter")
  /\ fs failing.2 = fs Fixture.world
  /\ run.1 = Return tt
  /\ files (fs run.2) !! "sql/a.sql" = Some "SELECT id FROM t".
Proof.
  intros failing run.
  assert (Hcollected :
    (process_dfs (Ext := Fixture.ext) "jobs" (PyStr "hive") (PyStr "c") PyNone
       PyNone PyNone PyNone PyNone Fixture.world).1 = Raise (KeyError "filter"))
    by (vm_compute; reflexivity).
  assert (Hrun : run.1 = Return tt) by (vm_compute; reflexivity).
  destruct (process_writes_last (Ext := Fixture.ext) "jobs" "out.csv"
              (PyStr "hive") (PyStr "c") PyNone PyNone PyNone PyNone PyNone
              Fixture.world) as (_ & Hfail & _).
  destruct (process_writes_last (Ext := Fixture.ext) "sql" "out.csv"
              (PyStr "hive") (PyStr "c") PyNone PyNone PyNone PyNone PyNone
              Fixture.world) as (_ & _ & _ & _ & Hother & _).
  destruct (Hfail _ Hcollected) as [Hraise Hfs].
  split; [exact Hcollected|]. split; [exact Hraise|]. split; [exact Hfs|].
  split; [exact Hrun|].
  fold run in Hother. rewrite Hother; [reflexivity | discriminate].
Defined.

(** X9.  An input that names neither a file nor a directory is itself the
    statement: it goes to [convert_sql_to_metadata] with [filename] [None]
    and the caller's [table_name], and the extractor is called once, on the
    input string.  A path that does not exist is thus parsed as SQL. *)
Theorem literal_input_is_statement `{Ext : External} (input output : string)
    (database_name cluster_name schema_name table_name
     source_database_name source_cluster_name dialect : PyVal) (w : World) :
  files (fs w) !! input = None ->
  input ∉ dirs (fs w) ->
  process_dfs input database_name cluster_name schema_name table_name
    source_database_name source_cluster_name dialect w
  = (df <- convert_sql_to_metadata PyNone input database_name cluster_name
             schema_name table_name source_database_name source_cluster_name
             dialect ;;
     ret [df]) w
  /\ calls (process input output database_name cluster_name schema_name
              table_name source_database_name source_cluster_name dialect w).2
     = calls w ++ [(input, dialect)].
Proof.
  intros Hnofile Hnodir.
  assert (Hdfs : process_dfs input database_name cluster_name schema_name
                   table_name source_database_name source_cluster_name dialect w
                 = (df <- convert_sql_to_metadata PyNone input database_name
                            cluster_name schema_name table_name
                            source_database_name source_cluster_name dialect ;;
                    ret [df]) w).
  { unfold process_dfs, isfile, isdir. unfold bind at 1.
    rewrite bool_decide_eq_false_2 by (rewrite Hnofile; by intros [? ?]).
    unfold bind at 1. by rewrite bool_decide_eq_false_2. }
  split; [done|].
  unfold process. unfold bind at 1. rewrite Hdfs. unfold bind.
  assert (Hw := convert_world PyNone input database_name cluster_name
                  schema_name table_name source_database_name
                  source_cluster_name dialect w).
  destruct (convert_sql_to_metadata _ _ _ _ _ _ _ _ _ w) as [[df|e] w1];
    cbn [snd] in Hw; subst w1; [|reflexivity].
  unfold ret, lift, to_csv. cbn [pd.concat fold_left].
  by destruct (bool_decide _).
Qed.

Lemma literal_input_is_statement_witness :
  files (fs Fixture.world) !! "sql/missing.sql" = None
  /\ ("sql/missing.sql" ∉ dirs (fs Fixture.world))
  /\ calls (process (Ext := Fixture.ext) "sql/missing.sql" "out.csv"
              (PyStr "hive") (PyStr "c") PyNone (PyStr "t") PyNone PyNone PyNone
              Fixture.world).2
     = [("sql/missing.sql", PyNone)].
Proof.
  assert (Hnofile : files (fs Fixture.world) !! "sql/missing.sql" = None)
    by reflexivity.
  assert (Hnodir : "sql/missing.sql" ∉ dirs (fs Fixture.world))
    by (vm_compute; intros H; discriminate H).
  split; [exact Hnofile|]. split; [exact Hnodir|].
  exact (proj2 (literal_input_is_statement (Ext := Fixture.ext)
                  "sql/missing.sql" "out.csv" (PyStr "hive") (PyStr "c")
                  PyNone (PyStr "t") PyNone PyNone PyNone Fixture.world
                  Hnofile Hnodir)).
Defined.

(** ** Directory runs, file by file *)

Section Files.

Context `{Ext : External}.

Variables database_name cluster_name schema_name : PyVal.
Variables source_database_name source_cluster_name dialect : PyVal.

Let one_file (sql_file : string) :=
  process_sql_file sql_file database_name cluster_name schema_name
    source_database_name source_cluster_name dialect.

(** A file that yields a frame has been read and sent to the extractor. *)
Lemma one_file_returns (sql_file : string) (w : World) (df : DataFrame) :
  (one_file sql_file w).1 = Return df ->
  exists text, files (fs w) !! sql_file = Some text
               /\ (one_file sql_file w).2 = logged w text dialect.
Proof.
  unfold one_file, process_sql_file, process_sql_file_with, bind, read_file.
  destruct (files (fs w) !! sql_file) as [text|]; [|discriminate].
  intros _. exists text. split; [done|]. apply convert_world.
Qed.

(** Whatever a file yields, it costs at most one call of the extractor. *)
Lemma one_file_calls (sql_file : string) (w : World) :
  length (calls (one_file sql_file w).2) <= length (calls w) + 1.
Proof.
  unfold one_file, process_sql_file, process_sql_file_with, bind, read_file.
  destruct (files (fs w) !! sql_file) as [text|]; cbn [snd]; [|lia].
  rewrite convert_world. cbn [logged calls]. rewrite length_app. simpl. lia.
Qed.

Lemma collect_calls (fl : list string) :
  forall (acc res : list DataFrame) (w w' : World),
  collect fl one_file acc w = (Return res, w') ->
  exists texts,
    Forall2 (fun f text => files (fs w) !! f = Some text) fl texts
    /\ calls w' = calls w ++ map (fun text => (text, dialect)) texts.
Proof.
  induction fl as [|f fl IH]; intros acc res w w'; cbn [collect].
  - intros [= _ <-]. exists []. split; [constructor | by rewrite app_nil_r].
  - unfold bind. destruct (one_file f w) as [[df|e] w1] eqn:Hf; [|discriminate].
    intros Hrest.
    destruct (one_file_returns f w df) as (text & Htext & Hw1);
      [by rewrite Hf|].
    rewrite Hf in Hw1. cbn [snd] in Hw1. subst w1.
    destruct (IH _ _ _ _ Hrest) as (texts & Hall & Hcalls).
    exists (text :: texts). split; [by constructor|].
    rewrite Hcalls. cbn [logged calls map]. by rewrite <- app_assoc.
Qed.

Lemma collect_prefix (done rest : list string) (w0 : World) :
  forall (dfs acc : list DataFrame) (w : World),
  fs w = fs w0 ->
  Forall2 (fun f df => (one_file f w0).1 = Return df) done dfs ->
  exists w1,
    collect (done ++ rest) one_file acc w = collect rest one_file (acc ++ dfs) w1
    /\ fs w1 = fs w0
    /\ length (calls w1) = length (calls w) + length done.
Proof.
  induction done as [|f done' IH]; intros dfs acc w Hfs Hall.
  - apply Forall2_nil_inv_l in Hall as ->. exists w.
    rewrite app_nil_r. simpl. split; [done|]. split; [done|lia].
  - apply Forall2_cons_inv_l in Hall as (df & dfs' & Hdf & Hall & ->).
    cbn [app collect]. unfold bind.
    assert (Hr : (one_file f w).1 = (one_file f w0).1)
      by (by apply process_sql_file_result).
    rewrite Hdf in Hr.
    destruct (one_file_returns f w df Hr) as (text & _ & Hw1).
    destruct (one_file f w) as [r w1]. cbn [fst snd] in *. subst r w1.
    destruct (IH dfs' (acc ++ [df]) (logged w text dialect)) as (w1 & Hc & Hfs1 & Hn);
      [done|done|].
    exists w1. rewrite Hc, <- app_assoc. split; [done|]. split; [done|].
    rewrite Hn. cbn [logged calls length]. rewrite length_app. simpl. lia.
Qed.

End Files.

Lemma process_dfs_directory `{Ext : External} (input : string)
    (database_name cluster_name schema_name table_name
     source_database_name source_cluster_name dialect : PyVal) (w : World) :
  files (fs w) !! input = None ->
  input ∈ dirs (fs w) ->
  process_dfs input database_name cluster_name schema_name table_name
    source_database_name source_cluster_name dialect w
  = collect (rglob (fs w) input "*.sql")
      (fun sql_file =>
         process_sql_file sql_file database_name cluster_name schema_name
           source_database_name source_cluster_name dialect)
      [] w.
Proof.
  intros Hnofile Hdir. unfold process_dfs, isfile, isdir. unfold bind at 1.
  rewrite bool_decide_eq_false_2 by (rewrite Hnofile; by intros [? ?]).
  unfold bind at 1. by rewrite bool_decide_eq_true_2.
Qed.

(** X10.  A directory run stops at the first file that fails: when the files
    found before it each yield a frame and it raises, the run ends with that
    file's exception, writes nothing, and the files found after it never
    reach the extractor (at most one call per file up to the failing one). *)
Theorem directory_stops_at_first_failure `{Ext : External}
    (input output : string)
    (database_name cluster_name schema_name table_name
     source_database_name source_cluster_name dialect : PyVal)
    (w : World) (done rest : list string) (failing : string)
    (dfs : list DataFrame) (e : exn) :
  files (fs w) !! input = None ->
  input ∈ dirs (fs w) ->
  rglob (fs w) input "*.sql" = done ++ failing :: rest ->
  Forall2 (fun sql_file df =>
             (process_sql_file sql_file database_name cluster_name schema_name
                source_database_name source_cluster_name dialect w).1
             = Return df) done dfs ->
  (process_sql_file failing database_name cluster_name schema_name
     source_database_name source_cluster_name dialect w).1 = Raise e ->
  let run := process input output database_name cluster_name schema_name
               table_name source_database_name source_cluster_name dialect w in
  run.1 = Raise e
  /\ fs run.2 = fs w
  /\ length (calls run.2) <= length (calls w) + length done + 1.
Proof.
  intros Hnofile Hdir Hfound Hdone Hfail run.
  destruct (collect_prefix database_name cluster_name schema_name
              source_database_name source_cluster_name dialect
              done (failing :: rest) w dfs [] w eq_refl Hdone)
    as (w1 & Hcollect & Hfs1 & Hn).
  assert (Hr := process_sql_file_result database_name cluster_name schema_name
                  source_database_name source_cluster_name dialect
                  failing w1 w Hfs1).
  cbv beta in Hr. rewrite Hfail in Hr.
  assert (Hc := one_file_calls database_name cluster_name schema_name
                  source_database_name source_cluster_name dialect failing w1).
  cbv beta in Hc.
  assert (Ht := traced_process_sql_file failing database_name cluster_name
                  schema_name source_database_name source_cluster_name
                  dialect w1).
  destruct Ht as [Hfs2 _].
  assert (Hrun : run = (Raise e,
            (process_sql_file failing database_name cluster_name schema_name
               source_database_name source_cluster_name dialect w1).2)).
  { subst run. unfold process. unfold bind at 1.
    rewrite process_dfs_directory by done.
    rewrite Hfound, Hcollect. cbn [collect]. unfold bind.
    destruct (process_sql_file failing _ _ _ _ _ _ w1) as [r w2].
    cbn [fst snd] in *. by subst r. }
  rewrite Hrun. cbn [fst snd]. split; [done|]. split; [congruence|lia].
Qed.

Lemma directory_stops_at_first_failure_witness :
  let run := process (Ext := Fixture.ext) "jobs" "out.csv" (PyStr "hive")
               (PyStr "c") PyNone PyNone PyNone PyNone PyNone Fixture.world in
  rglob (External := Fixture.ext) (fs Fixture.world) "jobs" "*.sql"
  = ["jobs/1.sql"] ++ "jobs/2.sql" :: ["jobs/3.sql"]
  /\ run.1 = Raise (KeyError "filter")
  /\ fs run.2 = fs Fixture.world
  /\ length (calls run.2) <= 2.
Proof.
  intros run. split; [reflexivity|].
  pose (d1 := Stub.frame_of
                (process_sql_file (Ext := Fixture.ext) "jobs/1.sql"
                   (PyStr "hive") (PyStr "c") PyNone PyNone PyNone PyNone
                   Fixture.world).1).
  assert (H1 : (process_sql_file (Ext := Fixture.ext) "jobs/1.sql" (PyStr "hive")
                  (PyStr "c") PyNone PyNone PyNone PyNone Fixture.world).1
               = Return d1) by (vm_compute; reflexivity).
  assert (H2 : (process_sql_file (Ext := Fixture.ext) "jobs/2.sql" (PyStr "hive")
                  (PyStr "c") PyNone PyNone PyNone PyNone Fixture.world).1
               = Raise (KeyError "filter")) by (vm_compute; reflexivity).
  apply (directory_stops_at_first_failure (Ext := Fixture.ext) "jobs" "out.csv"
           (PyStr "hive") (PyStr "c") PyNone PyNone PyNone PyNone PyNone
           Fixture.world ["jobs/1.sql"] ["jobs/3.sql"] "jobs/2.sql" [d1]
           (KeyError "filter")).
  - reflexivity.
  - vm_compute. reflexivity.
  - reflexivity.
  - constructor; [exact H1 | constructor].
  - exact H2.
Defined.

(** X11.  A directory run that returns has read every file found, in the
    order of discovery, and has called the extractor once per file, on the
    file's whole text and with the run's dialect. *)
Theorem directory_one_call_per_file `{Ext : External} (input output : string)
    (database_name cluster_name schema_name table_name
     source_database_name source_cluster_name dialect : PyVal) (w : World) :
  files (fs w) !! input = None ->
  input ∈ dirs (fs w) ->
  let run := process input output database_name cluster_name schema_name
               table_name source_database_name source_cluster_name dialect w in
  run.1 = Return tt ->
  exists texts,
    Forall2 (fun sql_file text => files (fs w) !! sql_file = Some text)
      (rglob (fs w) input "*.sql") texts
    /\ calls run.2 = calls w ++ map (fun text => (text, dialect)) texts.
Proof.
  intros Hnofile Hdir run. subst run.
  unfold process, bind. rewrite process_dfs_directory by done.
  destruct (collect _ _ _ w) as [[dfs|e] w1] eqn:Hcollect; [|discriminate].
  apply collect_calls in Hcollect as (texts & Hall & Hcalls).
  intros Hret. exists texts. split; [done|].
  unfold lift, to_csv in *. destruct (pd.concat dfs); [|discriminate].
  by destruct (bool_decide _).
Qed.

Lemma directory_one_call_per_file_witness :
  let run := process (Ext := Fixture.ext) "sql" "out.csv" (PyStr "hive")
               (PyStr "c") PyNone PyNone PyNone PyNone PyNone Fixture.world in
  run.1 = Return tt
  /\ exists texts,
       Forall2 (fun sql_file text =>
                  files (fs Fixture.world) !! sql_file = Some text)
         ["sql/a.sql"; "sql/sub/b.sql"] texts
       /\ calls run.2 = map (fun text => (text, PyNone)) texts.
Proof.
  intros run.
  assert (Hrun : run.1 = Return tt) by (vm_compute; reflexivity).
  split; [exact Hrun|].
  apply (directory_one_call_per_file (Ext := Fixture.ext) "sql" "out.csv"
           (PyStr "hive") (PyStr "c") PyNone PyNone PyNone PyNone PyNone
           Fixture.world).
  - reflexivity.
  - vm_compute. reflexivity.
  - exact Hrun.
Defined.

(** ** The entry point *)

(** X12.  When [--input] names neither a file nor a directory and [--table]
    is missing or empty, [main] raises its missing-argument exception before
    anything else happens: the extractor is not called and no file is
    written. *)
Theorem main_requires_table_for_statement `{Ext : External}
    (a : args.Namespace) (w : World) :
  args.input a <> EmptyString ->
  args.output a <> EmptyString ->
  files (fs w) !! args.input a = None ->
  args.input a ∉ dirs (fs w) ->
  truthy (args.table a) = false ->
  main a w
  = (Raise (Exception "Missing required arg --table when --input is a sql statement"),
     w).
Proof.
  intros Hin Hout Hnofile Hnodir Htable. unfold main.
  destruct (args.input a) as [|c i] eqn:Hi; [done|].
  destruct (args.output a) as [|c' o]; [done|]. cbn [truthy_str negb].
  unfold bind, isfile, isdir.
  rewrite bool_decide_eq_false_2 by (rewrite Hnofile; by intros [? ?]).
  rewrite bool_decide_eq_false_2 by done.
  by rewrite Htable.
Qed.

Lemma main_requires_table_for_statement_witness :
  main (Ext := Fixture.ext) (Fixture.arguments "SELECT id FROM t" PyNone)
    Fixture.world
  = (Raise (Exception "Missing required arg --table when --input is a sql statement"),
     Fixture.world).
Proof.
  apply (main_requires_table_for_statement (Ext := Fixture.ext)
           (Fixture.arguments "SELECT id FROM t" PyNone) Fixture.world).
  - discriminate.
  - discriminate.
  - reflexivity.
  - vm_compute. intros H. discriminate H.
  - reflexivity.
Defined.

(** X13.  When [--input] names a file or a directory, [--table] plays no
    part: two namespaces that differ in it only give the same run. *)
Theorem main_ignores_table_for_paths `{Ext : External} (input output : string)
    (database cluster schema table table' source_database source_cluster
     dialect : PyVal) (w : World) :
  is_Some (files (fs w) !! input) \/ input ∈ dirs (fs w) ->
  main {| args.input := input; args.output := output;
          args.database := database; args.cluster := cluster;
          args.schema := schema; args.table := table;
          args.source_database := source_database;
          args.source_cluster := source_cluster; args.dialect := dialect |} w
  = main {| args.input := input; args.output := output;
            args.database := database; args.cluster := cluster;
            args.schema := schema; args.table := table';
            args.source_database := source_database;
            args.source_cluster := source_cluster; args.dialect := dialect |} w.
Proof.
  intros Hpath. unfold main. cbn [args.input args.output args.database
    args.cluster args.schema args.table args.source_database
    args.source_cluster args.dialect].
  destruct (truthy_str input); [|reflexivity].
  destruct (truthy_str output); [|reflexivity]. cbn [negb].
  unfold process, process_dfs, bind, isfile, isdir.
  destruct (bool_decide (is_Some (files (fs w) !! input))) eqn:Hfile;
    [reflexivity|].
  destruct (bool_decide (input ∈ dirs (fs w))) eqn:Hdir; [reflexivity|].
  apply bool_decide_eq_false in Hfile, Hdir. by destruct Hpath.
Qed.

Lemma main_ignores_table_for_paths_witness :
  (is_Some (files (fs Fixture.world) !! "sql/a.sql")
   \/ "sql/a.sql" ∈ dirs (fs Fixture.world))
  /\ main (Ext := Fixture.ext) (Fixture.arguments "sql/a.sql" (PyStr "t"))
       Fixture.world
     = main (Ext := Fixture.ext) (Fixture.arguments "sql/a.sql" PyNone)
         Fixture.world.
Proof.
  assert (Hpath : is_Some (files (fs Fixture.world) !! "sql/a.sql")
                  \/ "sql/a.sql" ∈ dirs (fs Fixture.world)).
  { left. exists "SELECT id FROM t". reflexivity. }
  split; [exact Hpath|].
  exact (main_ignores_table_for_paths (Ext := Fixture.ext) "sql/a.sql" "out.csv"
           (PyStr "hive") (PyStr "c") PyNone (PyStr "t") PyNone PyNone PyNone
           PyNone Fixture.world Hpath).
Defined.

(** ** Columns without lineage *)

Lemma gather_without_lineage (f d c sdb scl : PyVal) (td : TableDetails)
    (columns : dict ColumnDetails) :
  forallb (fun item => without_lineage item.2) columns = true ->
  gather (column_rows f d c sdb scl td) columns = Some [].
Proof.
  induction columns as [|[cn cd] columns IH]; [reflexivity|].
  cbn [forallb gather snd]. intros [Hcd Hall]%andb_true_iff.
  rewrite (IH Hall). unfold column_rows, without_lineage in *. cbn [fst snd].
  by destruct (cd_lineage cd) as [[|li items]|].
Qed.

(** X14.  A table that has columns, none of them with a lineage item,
    leaves no row at all: the rows of the returned frame are those of the
    tables before it followed by those of the tables after it.  (A table
    without columns, by contrast, leaves one row.) *)
Theorem table_without_lineage_no_row `{Ext : External} (filename : PyVal)
    (sql_stmt : string)
    (database_name cluster_name schema_name table_name
     source_database_name source_cluster_name dialect : PyVal)
    (w : World) (l : Lineage)
    (earlier later : dict TableDetails) (fq_table_name : string)
    (table_details : TableDetails) (columns : Columns) :
  extract_sql_statements_lineage sql_stmt dialect = Return l ->
  lineage_wf (lineage_items l) = true ->
  lineage_items l = earlier ++ (fq_table_name, table_details) :: later ->
  td_columns table_details = Some columns ->
  truthy_columns columns = true ->
  forallb (fun item => without_lineage item.2) (columns_items columns) = true ->
  exists (before after : list (dict PyVal)) (df : DataFrame),
    lineage_rows filename database_name cluster_name
      source_database_name source_cluster_name earlier = Some before
    /\ lineage_rows filename database_name cluster_name
         source_database_name source_cluster_name later = Some after
    /\ convert_sql_to_metadata filename sql_stmt database_name cluster_name
         schema_name table_name source_database_name source_cluster_name
         dialect w
       = (Return df, logged w sql_stmt dialect)
    /\ pd.df_rows df = before ++ after.
Proof.
  intros He Hwf Hsplit Hcols Htruthy Hnone.
  assert (Hl : truthy_lineage l = true).
  { destruct l as [|d]; cbn [lineage_items] in Hsplit.
    - by destruct earlier.
    - subst d. by destruct earlier. }
  apply (lineage_rows_wf filename database_name cluster_name
           source_database_name source_cluster_name) in Hwf as [rs Hrs].
  assert (Hconv := convert_rows filename sql_stmt database_name cluster_name
                     schema_name table_name source_database_name
                     source_cluster_name dialect w l rs He Hl Hrs).
  rewrite Hsplit in Hrs. unfold lineage_rows in Hrs.
  apply gather_app in Hrs as (before & rest & Hbefore & Hrest & ->).
  cbn [gather] in Hrest. unfold table_rows at 1 in Hrest. cbn [fst snd] in Hrest.
  rewrite Hcols, Htruthy, (gather_without_lineage _ _ _ _ _ _ _ Hnone) in Hrest.
  destruct (gather _ later) as [after|] eqn:Hafter; [|discriminate].
  injection Hrest as <-.
  exists before, after, (converted (before ++ [] ++ after)).
  split; [done|]. split; [done|]. split; [done|]. by rewrite converted_rows.
Qed.

Lemma table_without_lineage_no_row_witness :
  let silent := LineageDict
    [ ("db.t",
       {| td_schema := Some (PyStr "db"); td_table := Some (PyStr "t");
          td_columns := Some (ColumnsDict
            [ ("id", {| cd_data_type := None; cd_lineage := None |});
              ("n", {| cd_data_type := None; cd_lineage := Some [] |}) ]) |}) ] in
  let stub := {| extract_sql_statements_lineage := fun _ _ => Return silent;
                 rglob := Fixture.listing;
                 csv_text := Stub.text |} in
  exists (before after : list (dict PyVal)) (df : DataFrame),
    before = [] /\ after = []
    /\ convert_sql_to_metadata (Ext := stub) PyNone "SELECT 1 AS id, 2 AS n"
         (PyStr "hive") (PyStr "c") PyNone PyNone PyNone PyNone PyNone
         Fixture.world
       = (Return df, logged Fixture.world "SELECT 1 AS id, 2 AS n" PyNone)
    /\ pd.df_rows df = before ++ after.
Proof.
  intros silent stub.
  destruct (table_without_lineage_no_row (Ext := stub) PyNone
              "SELECT 1 AS id, 2 AS n" (PyStr "hive") (PyStr "c")
              PyNone PyNone PyNone PyNone PyNone Fixture.world silent
              [] [] "db.t"
              {| td_schema := Some (PyStr "db"); td_table := Some (PyStr "t");
                 td_columns := Some (ColumnsDict
                   [ ("id", {| cd_data_type := None; cd_lineage := None |});
                     ("n", {| cd_data_type := None;
                              cd_lineage := Some [] |}) ]) |}
              (ColumnsDict
                 [ ("id", {| cd_data_type := None; cd_lineage := None |});
                   ("n", {| cd_data_type := None; cd_lineage := Some [] |}) ])
              eq_refl eq_refl eq_refl eq_refl eq_refl eq_refl)
    as (before & after & df & Hb & Ha & Hconv & Hrows).
  injection Hb as <-. injection Ha as <-.
  exists [], [], df. split; [reflexivity|]. split; [reflexivity|].
  split; [exact Hconv | exact Hrows].
Defined.
